(** * Netflix dashboard: cleaning, filtering and aggregation pipeline

    A shallow embedding of [src/app.py].  The script is a linear pandas
    pipeline: [load_and_clean_data] coerces two columns and drops the rows
    that hold a null, the sidebar values select a view of the cleaned frame,
    and a fixed list of reducers is computed from that view.

    Modelling conventions.
    - A DataFrame is a list of rows; a cell is an [option] whose [None] is
      pandas' NaN / NaT.  A column is the list of one field over the rows.
    - Text is [string] (bytes); a decimal digit is one of the ten ASCII
      digits.
    - Python's [int] is [Z]; a float is the exact rational it denotes ([Q]),
      NaN being [None].  Rounding of binary floating point is not modelled.
    - A Python exception is the [Raise] branch of [result].
    - The sort by count inside [value_counts()] and [sort_values()] is a
      parameter of the model: the script asks pandas for no kind of sort, so
      only what every kind gives is assumed (the table rearranged, counts
      descending), and the order of equal counts is left open.
    - DataFrame objects live in a store ([gmap] from locations to frames);
      boolean indexing and [.copy()] allocate, column assignment updates the
      object in place. *)

From Stdlib Require Import ZArith QArith Qabs List String Ascii Lia.
From stdpp Require Import base gmap strings list sorting.

Local Open Scope Z_scope.

(** ** Exceptions *)

Inductive exn : Type :=
| ZeroDivisionError
| IndexError
| ValueError
| KeyError
| NameError.

Inductive result (A : Type) : Type :=
| Ok (a : A)
| Raise (e : exn).
Arguments Ok {A} a.
Arguments Raise {A} e.

#[global] Instance result_ret : MRet result := fun A a => Ok a.
#[global] Instance result_bind : MBind result := fun A B f m =>
  match m with
  | Ok a => f a
  | Raise e => Raise e
  end.

(** ** Rows *)

(** [pd.Timestamp], as far as the script looks at it ([.dt.year]). *)
Record Timestamp : Type := mkTimestamp {
  ts_year : Z;
  ts_month : Z;
  ts_day : Z
}.

(** A row as [pd.read_csv] delivers it: every cell is text or missing.
    [raw_other] holds the cells of the columns the script never names
    (show_id, cast, description, ...); [dropna] looks at them too. *)
Record RawRow : Type := mkRawRow {
  raw_type : option string;
  raw_title : option string;
  raw_director : option string;
  raw_country : option string;
  raw_date_added : option string;
  raw_release_year : option string;
  raw_rating : option string;
  raw_duration : option string;
  raw_listed_in : option string;
  raw_other : list (option string)
}.

(** A row once [date_added] and [release_year] are coerced. *)
Record Row : Type := mkRow {
  type : option string;
  title : option string;
  director : option string;
  country : option string;
  date_added : option Timestamp;
  release_year : option Z;
  rating : option string;
  duration : option string;
  listed_in : option string;
  other : list (option string)
}.

#[global] Instance Timestamp_eq_dec : EqDecision Timestamp.
Proof. solve_decision. Defined.
#[global] Instance Row_eq_dec : EqDecision Row.
Proof. solve_decision. Defined.

(** [len(df)] *)
Definition len {A : Type} (l : list A) : Z := Z.of_nat (length l).

(** [df[name]]: one column of the frame. *)
Definition col {A : Type} (f : Row -> A) (df : list Row) : list A := map f df.

(** ** Cleaning: [load_and_clean_data] *)

Definition isna {A : Type} (c : option A) : bool :=
  match c with
  | None => true
  | Some _ => false
  end.

(** The null mask of one row, column by column. *)
Definition row_isna (r : Row) : list bool :=
  [ isna (type r); isna (title r); isna (director r); isna (country r);
    isna (date_added r); isna (release_year r); isna (rating r);
    isna (duration r); isna (listed_in r) ] ++ map isna (other r).

(** [df.dropna()]: how='any', axis=0. *)
Definition dropna (df : list Row) : list Row :=
  List.filter (fun r => negb (existsb (fun b => b) (row_isna r))) df.

(** [df[name] = column] for the two coerced columns: the i-th row receives
    the i-th cell of each column. *)
Definition assign_coerced (r : RawRow) (d : option Timestamp) (y : option Z) : Row :=
  {| type := raw_type r; title := raw_title r; director := raw_director r;
     country := raw_country r; date_added := d; release_year := y;
     rating := raw_rating r; duration := raw_duration r;
     listed_in := raw_listed_in r; other := raw_other r |}.

Fixpoint assign_columns (csv : list RawRow) (dates : list (option Timestamp))
    (years : list (option Z)) : list Row :=
  match csv, dates, years with
  | r :: csv', d :: dates', y :: years' =>
      assign_coerced r d y :: assign_columns csv' dates' years'
  | _, _, _ => []
  end.

Section Cleaning.
(** [pd.to_datetime(column, errors='coerce')] and
    [pd.to_numeric(column, errors='coerce')] are pandas routines, taken
    here as they are used: functions from a column to a column, with a
    null wherever the cell cannot be read.  A release year that is read
    is an integer, as in the data model of the catalog. *)
Variable to_datetime : list (option string) -> list (option Timestamp).
Variable to_numeric : list (option string) -> list (option Z).

Definition load_and_clean_data (csv : list RawRow) : list Row * list Row :=
  let df := assign_columns csv
              (to_datetime (map raw_date_added csv))
              (to_numeric (map raw_release_year csv)) in
  let df_clean := dropna df in
  (df, df_clean).
End Cleaning.

(** ** Data cleaning summary *)

(** [a / b] on Python ints. *)
Definition truediv (a b : Z) : result Q :=
  if b =? 0 then Raise ZeroDivisionError
  else Ok (inject_Z a / inject_Z b)%Q.

Definition original_rows (df_original : list Row) : Z := len df_original.
Definition cleaned_rows (df : list Row) : Z := len df.
Definition removed (df_original df : list Row) : Z :=
  original_rows df_original - cleaned_rows df.

Definition pct_removed (df_original df : list Row) : result Q :=
  q ← truediv (removed df_original df) (original_rows df_original);
  mret (q * 100)%Q.

(** ** Boolean masks and the filter stage *)

(** [column.isin(values)]: a null cell is in no list of strings. *)
Definition isin (column : list (option string)) (values : list string) : list bool :=
  map (fun c => match c with
                | Some s => existsb (String.eqb s) values
                | None => false
                end) column.

(** [column.between(left, right)], inclusive='both': [left <= x] and
    [x <= right]; a comparison with NaN is False. *)
Definition between (column : list (option Z)) (left right : Z) : list bool :=
  map (fun c => match c with
                | Some y => (left <=? y) && (y <=? right)
                | None => false
                end) column.

(** [column == text] *)
Definition eq_scalar (column : list (option string)) (text : string) : list bool :=
  map (fun c => match c with
                | Some s => String.eqb s text
                | None => false
                end) column.

(** [mask1 & mask2] *)
Definition mask_and (m1 m2 : list bool) : list bool := zip_with andb m1 m2.

(** [df[mask]]: the entries whose mask entry is True, in order.  The masks
    of the script are computed from the frame they index, so the lengths
    agree. *)
Fixpoint getitem_mask {A : Type} (df : list A) (mask : list bool) : list A :=
  match df, mask with
  | r :: df', b :: mask' =>
      if b then r :: getitem_mask df' mask' else getitem_mask df' mask'
  | _, _ => []
  end.

(** Lines 98-101: the rows of [df_filtered]. *)
Definition apply_filter (df : list Row) (selected_content_types : list string)
    (min_year max_year : Z) : list Row :=
  getitem_mask df
    (mask_and (isin (col type df) selected_content_types)
              (between (col release_year df) min_year max_year)).

(** ** Multi-valued fields: [.str.split(', ').explode()] *)

(** [text.split(', ')]: cut at every occurrence of comma-space, scanning
    from the left; the result is never empty. *)
Fixpoint split_comma (s : string) : list string :=
  match s with
  | EmptyString => [EmptyString]
  | String c s' =>
      let keep := match split_comma s' with
                  | h :: t => String c h :: t
                  | [] => [String c EmptyString]
                  end in
      if Ascii.eqb c ","%char then
        match s' with
        | String c' s'' =>
            if Ascii.eqb c' " "%char then EmptyString :: split_comma s'' else keep
        | EmptyString => keep
        end
      else keep
  end.

(** [column.str.split(', ')]: NaN stays NaN. *)
Definition str_split (column : list (option string)) : list (option (list string)) :=
  map (fun c => match c with
                | Some s => Some (split_comma s)
                | None => None
                end) column.

(** [column.explode()]: one entry per list element; a NaN cell and an
    empty list give one NaN entry. *)
Definition explode (column : list (option (list string))) : list (option string) :=
  flat_map (fun c => match c with
                     | Some (v :: vs) => map Some (v :: vs)
                     | Some [] => [None]
                     | None => [None]
                     end) column.

(** ** Frequency tables: [value_counts], [nunique], [head], [sort_index] *)

Section Counting.
Context {A : Type} `{EqDecision A}.

(** One more occurrence of [x] in a table that lists the keys in the
    order they were first met. *)
Fixpoint bump (x : A) (t : list (A * nat)) : list (A * nat) :=
  match t with
  | [] => [(x, 1%nat)]
  | (y, n) :: t' =>
      if decide (x = y) then (y, S n) :: t' else (y, n) :: bump x t'
  end.

(** The hash-table pass of [value_counts]: keys in order of first
    occurrence, each with its number of occurrences. *)
Definition tally (values : list A) : list (A * nat) :=
  fold_left (fun t x => bump x t) values [].

(** A stable sort by descending count, what [sort_values(ascending=False,
    kind='stable')] would give: equal counts keep the order they have in the
    table. *)
Fixpoint insert_desc (e : A * nat) (s : list (A * nat)) : list (A * nat) :=
  match s with
  | [] => [e]
  | h :: s' =>
      if (snd h <=? snd e)%nat then e :: h :: s' else h :: insert_desc e s'
  end.

Definition sort_values_desc (t : list (A * nat)) : list (A * nat) :=
  fold_right insert_desc [] t.

(** [series.dropna()] *)
Definition drop_null (column : list (option A)) : list A :=
  flat_map (fun c => match c with
                     | Some v => [v]
                     | None => []
                     end) column.

(** [column.nunique()]: number of distinct non-null values. *)
Definition nunique (column : list (option A)) : Z :=
  len (tally (drop_null column)).

(** [table.head(n)] *)
Definition head (n : nat) (t : list (A * nat)) : list (A * nat) := take n t.

(** [table.index[0]] *)
Definition index0 (t : list (A * nat)) : result A :=
  match t with
  | (k, _) :: _ => Ok k
  | [] => Raise IndexError
  end.
End Counting.

Section ValueCounts.
(** The sort by count inside [value_counts()] and
    [sort_values(ascending=False)].  The script asks for no kind of sort,
    and the default kind of pandas is not a stable one, so the order of
    equal counts is not fixed by the script: the sort is a parameter of the
    model.  What every kind guarantees, a rearrangement of the table with
    the counts descending, is assumed where it is needed. *)
Variable sort_values : forall A : Type, list (A * nat) -> list (A * nat).

(** [column.value_counts()]: dropna=True, sort=True, descending. *)
Definition value_counts {A : Type} `{EqDecision A} (column : list (option A))
    : list (A * nat) :=
  sort_values A (tally (drop_null column)).
End ValueCounts.

(** [table.sort_index()] on integer keys, ascending. *)
Fixpoint insert_key (e : Z * nat) (s : list (Z * nat)) : list (Z * nat) :=
  match s with
  | [] => [e]
  | h :: s' => if fst e <=? fst h then e :: h :: s' else h :: insert_key e s'
  end.

Definition sort_index (t : list (Z * nat)) : list (Z * nat) :=
  fold_right insert_key [] t.

(** ** Numeric extraction: [.str.extract(r'(\d+)').astype(float)] *)

Definition is_digit (c : ascii) : bool :=
  (48 <=? nat_of_ascii c)%nat && (nat_of_ascii c <=? 57)%nat.

(** The digits at the head of [s]. *)
Fixpoint take_digits (s : string) : string :=
  match s with
  | EmptyString => EmptyString
  | String c s' => if is_digit c then String c (take_digits s') else EmptyString
  end.

(** [re.search(r'(\d+)', s)]: the leftmost match, which is greedy. *)
Fixpoint search_digits (s : string) : option string :=
  match s with
  | EmptyString => None
  | String c s' =>
      if is_digit c then Some (String c (take_digits s')) else search_digits s'
  end.

Definition digit_value (c : ascii) : Z := Z.of_nat (nat_of_ascii c) - 48.

(** The number a run of digits denotes. *)
Fixpoint digits_to_number (acc : Z) (digits : string) : Z :=
  match digits with
  | EmptyString => acc
  | String c d' => digits_to_number (10 * acc + digit_value c) d'
  end.

(** One cell of [column.str.extract(r'(\d+)').astype(float)]. *)
Definition extract_number (cell : option string) : option Z :=
  match cell with
  | Some s =>
      match search_digits s with
      | Some digits => Some (digits_to_number 0 digits)
      | None => None
      end
  | None => None
  end.

Definition str_extract_float (column : list (option string)) : list (option Z) :=
  map extract_number column.

(** ** Means *)

Definition sum_Z (l : list Z) : Z := fold_right Z.add 0 l.

(** [column.mean()]: skipna=True; NaN when no value is left. *)
Definition mean (column : list (option Z)) : option Q :=
  match drop_null column with
  | [] => None
  | v :: vs => Some (inject_Z (sum_Z (v :: vs)) / inject_Z (len (v :: vs)))%Q
  end.

(** [int(x)] on a float: truncation toward zero; NaN raises. *)
Definition int_of_float (x : option Q) : result Z :=
  match x with
  | Some q => Ok (Z.quot (Qnum q) (Zpos (Qden q)))
  | None => Raise ValueError
  end.

(** ** The store of DataFrame objects *)

(** A frame: its rows, and the numeric columns added to it after it was
    built ([frame[name] = column]). *)
Record DataFrame : Type := mkDataFrame {
  rows : list Row;
  added : gmap string (list (option Z))
}.

Abbreviation loc := positive.
Abbreviation store := (gmap positive DataFrame).

(** A statement of the script: it reads and updates the store and may
    raise. *)
Definition M (A : Type) : Type := store -> result (A * store).

#[global] Instance M_ret : MRet M := fun A a h => Ok (a, h).
#[global] Instance M_bind : MBind M := fun A B f m h =>
  match m h with
  | Ok (a, h') => f a h'
  | Raise e => Raise e
  end.

Definition lift {A : Type} (r : result A) : M A := fun h =>
  match r with
  | Ok a => Ok (a, h)
  | Raise e => Raise e
  end.

(** Reading a variable that is bound to the object at [l]. *)
Definition read (l : loc) : M DataFrame := fun h =>
  match h !! l with
  | Some f => Ok (f, h)
  | None => Raise NameError
  end.

(** A new object, at a location not in use. *)
Definition alloc (f : DataFrame) : M loc := fun h =>
  let l := fresh (dom h) in Ok (l, <[l := f]> h).

(** [frame[mask]]: a new frame holding the selected rows (and the selected
    entries of every added column). *)
Definition getitem (l : loc) (mask_of : list Row -> list bool) : M loc :=
  f ← read l;
  let mask := mask_of (rows f) in
  alloc {| rows := getitem_mask (rows f) mask;
           added := (fun c => getitem_mask c mask) <$> added f |}.

(** [frame.copy()] *)
Definition copy (l : loc) : M loc :=
  f ← read l;
  alloc f.

(** [frame[name] = column]: updates the object at [l] in place. *)
Definition setitem (l : loc) (name : string) (column : list (option Z)) : M unit :=
  fun h =>
    match h !! l with
    | Some f => Ok (tt, <[l := {| rows := rows f;
                                  added := <[name := column]> (added f) |}]> h)
    | None => Raise NameError
    end.

(** [frame[name]] for an added column. *)
Definition getcol (l : loc) (name : string) : M (list (option Z)) :=
  f ← read l;
  match added f !! name with
  | Some c => mret c
  | None => lift (Raise KeyError)
  end.

(** Lines 98-101 as a statement: [df_filtered = df[...]]. *)
Definition filter_stage (df : loc) (selected_content_types : list string)
    (min_year max_year : Z) : M loc :=
  getitem df (fun rs =>
    mask_and (isin (col type rs) selected_content_types)
             (between (col release_year rs) min_year max_year)).

(** ** The reducers *)

Section Reducers.
Variable sort_values : forall A : Type, list (A * nat) -> list (A * nat).
#[local] Abbreviation value_counts := (value_counts sort_values).

Record KeyMetrics : Type := mkKeyMetrics {
  total_titles : Z;
  movies : Z;
  shows : Z;
  countries : Z;
  genres : Z
}.

(** What a duration panel shows: the values that reach the histogram (the
    plot bins the non-null entries of the column) with their average, or
    an [st.info] message. *)
Inductive DurationPanel : Type :=
| Histogram (x : list Z) (average : option Q)
| PanelInfo (message : string).

(** What an insight box shows. *)
Inductive Insight : Type :=
| ContentMixRatio (ratio : Q)
| OnlyMoviesSelected
| MostPopularGenre (top_genre : string)
| AverageReleaseYear (year : Z)
| NoDataAvailable.

(** [df['country'].str.split(', ').explode()] and the same for genres. *)
Definition countries_list (view : list Row) : list (option string) :=
  explode (str_split (col country view)).
Definition genres_list (view : list Row) : list (option string) :=
  explode (str_split (col listed_in view)).

(** Lines 107-124. *)
Definition key_metrics (view : list Row) : KeyMetrics :=
  {| total_titles := len view;
     movies := len (getitem_mask view (eq_scalar (col type view) "Movie"));
     shows := len (getitem_mask view (eq_scalar (col type view) "TV Show"));
     countries := nunique (countries_list view);
     genres := nunique (genres_list view) |}.

(** Line 134. *)
Definition type_dist (view : list Row) : list (string * nat) :=
  value_counts (col type view).

(** Line 153: [groupby(date_added.dt.year).size()]; groups come out in
    ascending key order and a null key forms no group. *)
Definition added_trend (view : list Row) : list (Z * nat) :=
  sort_index (tally (drop_null (map (option_map ts_year) (col date_added view)))).

(** Lines 177-178. *)
Definition top_genres (view : list Row) : list (string * nat) :=
  head 15 (value_counts (genres_list view)).

(** Line 199. *)
Definition rating_dist (view : list Row) : list (string * nat) :=
  head 10 (sort_values _ (value_counts (col rating view))).

(** Lines 221-222. *)
Definition top_countries (view : list Row) : list (string * nat) :=
  head 15 (value_counts (countries_list view)).

(** Line 243. *)
Definition release_dist (view : list Row) : list (Z * nat) :=
  sort_index (value_counts (col release_year view)).

(** Lines 265-290. *)
Definition movie_durations (df_filtered : loc) : M DurationPanel :=
  selected ← getitem df_filtered (fun rs => eq_scalar (col type rs) "Movie");
  movies_df ← copy selected;
  f ← read movies_df;
  if 0 <? len (rows f) then
    _ ← setitem movies_df "duration_min" (str_extract_float (col duration (rows f)));
    duration_min ← getcol movies_df "duration_min";
    mret (Histogram (drop_null duration_min) (mean duration_min))
  else mret (PanelInfo "No movies in selected filters").

(** Lines 294-319. *)
Definition show_seasons (df_filtered : loc) : M DurationPanel :=
  selected ← getitem df_filtered (fun rs => eq_scalar (col type rs) "TV Show");
  shows_df ← copy selected;
  f ← read shows_df;
  if 0 <? len (rows f) then
    _ ← setitem shows_df "seasons" (str_extract_float (col duration (rows f)));
    seasons ← getcol shows_df "seasons";
    mret (Histogram (drop_null seasons) (mean seasons))
  else mret (PanelInfo "No TV shows in selected filters").

(** Lines 329-335. *)
Definition content_mix_insight (view : list Row) : result Insight :=
  let movies_count := len (getitem_mask view (eq_scalar (col type view) "Movie")) in
  let shows_count := len (getitem_mask view (eq_scalar (col type view) "TV Show")) in
  if 0 <? shows_count then
    ratio ← truediv movies_count shows_count;
    mret (ContentMixRatio ratio)
  else mret OnlyMoviesSelected.

(** Lines 338-342. *)
Definition top_genre_insight (view : list Row) : result Insight :=
  if 0 <? len view then
    top_genre ← index0 (value_counts (genres_list view));
    mret (MostPopularGenre top_genre)
  else mret NoDataAvailable.

(** Lines 345-349. *)
Definition avg_year_insight (view : list Row) : result Insight :=
  if 0 <? len view then
    let avg_year := mean (col release_year view) in
    year ← int_of_float avg_year;
    mret (AverageReleaseYear year)
  else mret NoDataAvailable.

Record Dashboard : Type := mkDashboard {
  metrics : KeyMetrics;
  chart_type : list (string * nat);
  chart_trend : list (Z * nat);
  chart_genres : list (string * nat);
  chart_rating : list (string * nat);
  chart_countries : list (string * nat);
  chart_release : list (Z * nat);
  panel_movies : DurationPanel;
  panel_shows : DurationPanel;
  insight_mix : Insight;
  insight_genre : Insight;
  insight_year : Insight
}.

(** Lines 103-349, top to bottom: each block reads [df_filtered] when it
    runs. *)
Definition aggregates (df_filtered : loc) : M Dashboard :=
  f ← read df_filtered;
  let km := key_metrics (rows f) in
  let c_type := type_dist (rows f) in
  let c_trend := added_trend (rows f) in
  let c_genres := top_genres (rows f) in
  let c_rating := rating_dist (rows f) in
  let c_countries := top_countries (rows f) in
  let c_release := release_dist (rows f) in
  p_movies ← movie_durations df_filtered;
  p_shows ← show_seasons df_filtered;
  g ← read df_filtered;
  i_mix ← lift (content_mix_insight (rows g));
  i_genre ← lift (top_genre_insight (rows g));
  i_year ← lift (avg_year_insight (rows g));
  mret {| metrics := km; chart_type := c_type; chart_trend := c_trend;
          chart_genres := c_genres; chart_rating := c_rating;
          chart_countries := c_countries; chart_release := c_release;
          panel_movies := p_movies; panel_shows := p_shows;
          insight_mix := i_mix; insight_genre := i_genre;
          insight_year := i_year |}.

(** One run of the script below the sidebar: filter, then aggregate. *)
Definition session (df : loc) (selected_content_types : list string)
    (min_year max_year : Z) : M (loc * Dashboard) :=
  df_filtered ← filter_stage df selected_content_types min_year max_year;
  d ← aggregates df_filtered;
  mret (df_filtered, d).
End Reducers.

(** ** The sidebar: lines 83-95 *)

(** What a statement of the sidebar comes to: a value, the TypeError of a
    comparison between a text and NaN, or one of the other exceptions. *)
Inductive outcome (A : Type) : Type :=
| Done (a : A)
| TypeError
| Failed (e : exn).
Arguments Done {A} a.
Arguments TypeError {A}.
Arguments Failed {A} e.

#[global] Instance outcome_ret : MRet outcome := fun A a => Done a.
#[global] Instance outcome_bind : MBind outcome := fun A B f m =>
  match m with
  | Done a => f a
  | TypeError => TypeError
  | Failed e => Failed e
  end.

Definition of_result {A : Type} (r : result A) : outcome A :=
  match r with
  | Ok a => Done a
  | Raise e => Failed e
  end.

(** [column.unique()]: the distinct cells in order of first appearance; a
    null cell is a value like another. *)
Definition unique {A : Type} `{EqDecision A} (column : list A) : list A :=
  map fst (tally column).

(** [sorted(names)] on texts: ascending by code point. *)
Fixpoint insert_sorted (s : string) (l : list string) : list string :=
  match l with
  | [] => [s]
  | h :: t => if String.leb s h then s :: h :: t else h :: insert_sorted s t
  end.

Definition sort_strings (l : list string) : list string :=
  fold_right insert_sorted [] l.

(** [sorted(cells)] on the cells [unique] returns: a list of at most one
    cell is returned as it is; otherwise the cells are compared, and
    comparing a text with NaN raises TypeError. *)
Definition sorted (cells : list (option string)) : outcome (list (option string)) :=
  match cells with
  | [] => Done cells
  | [_] => Done cells
  | _ =>
      if forallb (fun c => negb (isna c)) cells
      then Done (map Some (sort_strings (drop_null cells)))
      else TypeError
  end.

(** [column.min()] and [column.max()]: skipna=True, NaN when no value is
    left. *)
Definition series_min (column : list (option Z)) : option Z :=
  match drop_null column with
  | [] => None
  | v :: vs => Some (fold_right Z.min v vs)
  end.

Definition series_max (column : list (option Z)) : option Z :=
  match drop_null column with
  | [] => None
  | v :: vs => Some (fold_right Z.max v vs)
  end.

(** What the sidebar offers: the options of the multiselect, which are
    also its default, and the bounds of the slider, which are also its
    default range. *)
Record Sidebar : Type := mkSidebar {
  content_types : list (option string);
  slider_min : Z;
  slider_max : Z
}.

Definition sidebar (df : list Row) : outcome Sidebar :=
  types ← sorted (unique (col type df));
  low ← of_result (int_of_float (option_map inject_Z (series_min (col release_year df))));
  high ← of_result (int_of_float (option_map inject_Z (series_max (col release_year df))));
  mret {| content_types := types; slider_min := low; slider_max := high |}.

(** * Specification vocabulary *)

(** Every field of the row holds a value. *)
Definition all_fields_non_null (r : Row) : Prop :=
  type r <> None /\ title r <> None /\ director r <> None /\
  country r <> None /\ date_added r <> None /\ release_year r <> None /\
  rating r <> None /\ duration r <> None /\ listed_in r <> None /\
  Forall (fun c => c <> None) (other r).

(** [out] is [l] with the entries that satisfy [P] kept, in order, and the
    others dropped. *)
Inductive kept_in_order {A : Type} (P : A -> Prop) : list A -> list A -> Prop :=
| kept_nil : kept_in_order P [] []
| kept_keep x l out : P x -> kept_in_order P l out -> kept_in_order P (x :: l) (x :: out)
| kept_drop x l out : ~ P x -> kept_in_order P l out -> kept_in_order P (x :: l) out.

(** The row passes the filter: its type is one of the selected ones and its
    release year lies in the closed range. *)
Definition matches_filter (selected_content_types : list string)
    (min_year max_year : Z) (r : Row) : Prop :=
  (exists t, type r = Some t /\ In t selected_content_types) /\
  (exists y, release_year r = Some y /\ min_year <= y <= max_year).

(** The row-wise reading of the two masks of the filter. *)
Definition row_passes (selected_content_types : list string)
    (min_year max_year : Z) (r : Row) : bool :=
  match type r with
  | Some s => existsb (String.eqb s) selected_content_types
  | None => false
  end &&
  match release_year r with
  | Some y => (min_year <=? y) && (y <=? max_year)
  | None => false
  end.

(** Every character of the text satisfies [P]. *)
Fixpoint string_forall (P : ascii -> Prop) (s : string) : Prop :=
  match s with
  | EmptyString => True
  | String c s' => P c /\ string_forall P s'
  end.

Definition no_digit (s : string) : Prop := string_forall (fun c => is_digit c = false) s.
Definition all_digits (s : string) : Prop := string_forall (fun c => is_digit c = true) s.

(** The text does not go on with a digit. *)
Definition stops_run (rest : string) : Prop :=
  match rest with
  | EmptyString => True
  | String c _ => is_digit c = false
  end.

(** Positional value of a decimal numeral. *)
Fixpoint decimal_value (digits : string) : Z :=
  match digits with
  | EmptyString => 0
  | String c d' => digit_value c * 10 ^ Z.of_nat (String.length d') + decimal_value d'
  end.

Section CountingVocabulary.
Context {A : Type} `{EqDecision A}.

(** Number of entries of [l] equal to [x]. *)
Definition occurrences (x : A) (l : list A) : nat :=
  length (List.filter (fun y => bool_decide (y = x)) l).

(** Position of the first entry of [l] equal to [x] ([length l] when there
    is none). *)
Fixpoint first_pos (x : A) (l : list A) : nat :=
  match l with
  | [] => 0
  | y :: l' => if decide (x = y) then 0 else S (first_pos x l')
  end.

(** The count a table gives for [x] (0 when [x] is not listed). *)
Fixpoint count_of (x : A) (t : list (A * nat)) : nat :=
  match t with
  | [] => 0
  | (y, n) :: t' => if decide (x = y) then n else count_of x t'
  end.

(** Order of a frequency table: higher count first, and among equal counts
    the value met first. *)
Definition ranks_before (values : list A) (e1 e2 : A * nat) : Prop :=
  (snd e2 < snd e1)%nat \/
  (snd e1 = snd e2 /\ (first_pos (fst e1) values < first_pos (fst e2) values)%nat).
End CountingVocabulary.

(** Sum of the counts of a table. *)
Definition sum_counts {A : Type} (t : list (A * nat)) : nat := sum_list (map snd t).

(** The values a multi-valued cell lists; a null cell lists none. *)
Definition delimited_values (cell : option string) : list string :=
  match cell with
  | Some s => split_comma s
  | None => []
  end.

(** All the values the rows of a view list in one multi-valued field, in
    row order. *)
Definition listed_values (field : Row -> option string) (view : list Row) : list string :=
  flat_map (fun r => delimited_values (field r)) view.


(** The table counts every listing of every row once: the counts add up to
    the number of listings, and the count of a value is the number of times
    the rows list it. *)
Definition explosion_conserved (field : Row -> option string) (view : list Row)
    (table : list (string * nat)) : Prop :=
  sum_counts table = sum_list_with (fun r => length (delimited_values (field r))) view /\
  (forall x n, (x, n) ∈ table <->
     (0 < n)%nat /\
     n = sum_list_with (fun r => occurrences x (delimited_values (field r))) view).

(** Number of rows of the view whose type is [kind]. *)
Definition count_type (kind : string) (view : list Row) : nat :=
  length (List.filter (fun r => bool_decide (type r = Some kind)) view).

(** What a duration panel shows for a view: the numbers extracted from the
    rows of the given type, a row whose duration yields no number
    contributing nothing, or the message when no row has that type. *)
Definition duration_panel (kind message : string) (view : list Row) : DurationPanel :=
  match List.filter (fun r => bool_decide (type r = Some kind)) view with
  | [] => PanelInfo message
  | r :: rs =>
      Histogram
        (flat_map (fun r' => match extract_number (duration r') with
                             | Some n => [n]
                             | None => []
                             end) (r :: rs))
        (mean (map (fun r' => extract_number (duration r')) (r :: rs)))
  end.

(** What the script shows for an empty view: zero metrics, empty charts,
    the message of each duration panel, "No data available" in the top-genre
    and average-year boxes, and "Only movies selected" in the content-mix
    box, whose test looks at the number of shows only. *)
Definition dashboard_shown_on_empty_view : Dashboard :=
  {| metrics := {| total_titles := 0; movies := 0; shows := 0;
                   countries := 0; genres := 0 |};
     chart_type := []; chart_trend := []; chart_genres := [];
     chart_rating := []; chart_countries := []; chart_release := [];
     panel_movies := PanelInfo "No movies in selected filters";
     panel_shows := PanelInfo "No TV shows in selected filters";
     insight_mix := OnlyMoviesSelected;
     insight_genre := NoDataAvailable;
     insight_year := NoDataAvailable |}.

Section DashboardOf.
Variable sort_values : forall A : Type, list (A * nat) -> list (A * nat).
#[local] Abbreviation type_dist := (type_dist sort_values).
#[local] Abbreviation top_genres := (top_genres sort_values).
#[local] Abbreviation rating_dist := (rating_dist sort_values).
#[local] Abbreviation top_countries := (top_countries sort_values).
#[local] Abbreviation release_dist := (release_dist sort_values).

(** The pure part of the dashboard of a view, given its three insights. *)
Definition dashboard_of (view : list Row) (i_mix i_genre i_year : Insight) : Dashboard :=
  {| metrics := key_metrics view; chart_type := type_dist view;
     chart_trend := added_trend view; chart_genres := top_genres view;
     chart_rating := rating_dist view; chart_countries := top_countries view;
     chart_release := release_dist view;
     panel_movies := duration_panel "Movie" "No movies in selected filters" view;
     panel_shows := duration_panel "TV Show" "No TV shows in selected filters" view;
     insight_mix := i_mix; insight_genre := i_genre; insight_year := i_year |}.
End DashboardOf.

(** The frame [frame[mask]] builds for the filter of the sidebar. *)
Definition filtered_frame (F : DataFrame) (selected_content_types : list string)
    (min_year max_year : Z) : DataFrame :=
  {| rows := apply_filter (rows F) selected_content_types min_year max_year;
     added := (fun c => getitem_mask c
                 (mask_and (isin (col type (rows F)) selected_content_types)
                           (between (col release_year (rows F)) min_year max_year)))
              <$> added F |}.

(** The arithmetic mean of a list of integers. *)
Definition arithmetic_mean (values : list Z) : Q :=
  (inject_Z (sum_Z values) / inject_Z (len values))%Q.

(** [y] is an integer nearest to [q]: it lies within one half of it. *)
Definition nearest_integer (q : Q) (y : Z) : Prop :=
  (Qabs (q - inject_Z y) <= 1 # 2)%Q.

(** A row with every field filled in. *)
Definition sample_row (kind : string) (year : Z) (length_text countries_text
    genres_text : string) : Row :=
  {| type := Some kind; title := Some "Title"; director := Some "Director";
     country := Some countries_text;
     date_added := Some {| ts_year := 2021; ts_month := 9; ts_day := 25 |};
     release_year := Some year; rating := Some "PG-13";
     duration := Some length_text; listed_in := Some genres_text; other := [] |}.

(** The five cleaned records of the end-to-end scenario. *)
Definition sample_catalog : list Row :=
  [ sample_row "Movie" 2020 "90 min" "US, UK" "Dramas, Comedies";
    sample_row "Movie" 2019 "120 min" "US" "Dramas";
    sample_row "TV Show" 2020 "2 Seasons" "UK" "TV Dramas";
    sample_row "TV Show" 2021 "5 Seasons" "US" "TV Dramas, Kids' TV";
    sample_row "Movie" 2021 "95 min" "IN" "Comedies" ].

(** Three movies released in 2020, 2021 and 2021. *)
Definition sample_years : list Row :=
  [ sample_row "Movie" 2020 "90 min" "US" "Dramas";
    sample_row "Movie" 2021 "91 min" "US" "Dramas";
    sample_row "Movie" 2021 "92 min" "US" "Dramas" ].

(** [', '.join(pieces)] *)
Fixpoint join_comma (pieces : list string) : string :=
  match pieces with
  | [] => EmptyString
  | [p] => p
  | p :: rest => (p ++ ", " ++ join_comma rest)%string
  end.

(** A date reader that knows one date, and a number reader that accepts a
    text made of digits only; both answer cell for cell. *)
Definition sample_to_datetime (column : list (option string)) : list (option Timestamp) :=
  map (fun c => match c with
                | Some s =>
                    if String.eqb s "September 25, 2021"
                    then Some {| ts_year := 2021; ts_month := 9; ts_day := 25 |}
                    else None
                | None => None
                end) column.

Definition sample_to_numeric (column : list (option string)) : list (option Z) :=
  map (fun c => match c with
                | Some s =>
                    match search_digits s with
                    | Some d => if String.eqb d s then Some (digits_to_number 0 d) else None
                    | None => None
                    end
                | None => None
                end) column.

Definition sample_raw (director_cell : option string) (date_text year_text : string) : RawRow :=
  {| raw_type := Some "Movie"; raw_title := Some "Title";
     raw_director := director_cell; raw_country := Some "US, UK";
     raw_date_added := Some date_text; raw_release_year := Some year_text;
     raw_rating := Some "PG-13"; raw_duration := Some "90 min";
     raw_listed_in := Some "Dramas"; raw_other := [Some "s1"] |}.

(** Four raw rows: a complete one, one without director, one whose date
    cannot be read and one whose year is not a number. *)
Definition sample_csv : list RawRow :=
  [ sample_raw (Some "Director") "September 25, 2021" "2020";
    sample_raw None "September 25, 2021" "2019";
    sample_raw (Some "Director") "last autumn" "2018";
    sample_raw (Some "Director") "September 25, 2021" "MMXX" ].

(** A store that holds the sample catalog at location 1. *)
Definition sample_store : store :=
  {[ 1%positive := {| rows := sample_catalog; added := ∅ |} ]}.

(** The two frames [load_and_clean_data] returns for the sample file. *)
Definition sample_frames : list Row * list Row :=
  load_and_clean_data sample_to_datetime sample_to_numeric sample_csv.

(** Number of rows of the view added in calendar year [y]. *)
Definition count_year_added (y : Z) (view : list Row) : nat :=
  length (List.filter
            (fun r => bool_decide (option_map ts_year (date_added r) = Some y)) view).

(** Number of rows of the view released in year [y]. *)
Definition count_release_year (y : Z) (view : list Row) : nat :=
  length (List.filter (fun r => bool_decide (release_year r = Some y)) view).

(** Number of rows of the view whose cell in [field] is [x]. *)
Definition count_cell {A : Type} `{EqDecision A} (field : Row -> option A) (x : A)
    (view : list Row) : nat :=
  length (List.filter (fun r => bool_decide (field r = Some x)) view).

(** The text holds the delimiter comma-space somewhere. *)
Fixpoint contains_sep (s : string) : bool :=
  match s with
  | EmptyString => false
  | String c s' =>
      match s' with
      | String c' _ => (Ascii.eqb c "," && Ascii.eqb c' " ") || contains_sep s'
      | EmptyString => false
      end
  end.

(** [top] is a top-[k] frequency table of [values] as far as the counts
    go: it lists values with their counts, each value once; a listed value
    is at least as frequent as an unlisted one; the entries come by
    descending count; and it has [k] entries when there are that many
    distinct values.  Nothing is said of the order of equal counts. *)
Definition is_top_k_by_count {A : Type} `{EqDecision A} (k : nat) (values : list A)
    (top : list (A * nat)) : Prop :=
  (forall x n, (x, n) ∈ top -> x ∈ values /\ n = occurrences x values) /\
  (forall x n y, (x, n) ∈ top -> y ∈ values -> y ∉ top.*1 ->
     (occurrences y values <= n)%nat) /\
  (forall i j x n y m, (i < j)%nat ->
     top !! i = Some (x, n) -> top !! j = Some (y, m) -> (m <= n)%nat) /\
  NoDup top.*1 /\
  length top = Nat.min k (length (remove_dups values)).

(** The sort by count is the stable one. *)
Definition is_stable (sort_values : forall A : Type, list (A * nat) -> list (A * nat))
    : Prop :=
  forall (A : Type) (t : list (A * nat)), sort_values A t = sort_values_desc t.

(** Two sorts by descending count: the stable one, and one that leaves
    equal counts in the reverse of the order they have in the table. *)
Definition stable_sort (A : Type) (t : list (A * nat)) : list (A * nat) :=
  sort_values_desc t.

Definition reversed_ties_sort (A : Type) (t : list (A * nat)) : list (A * nat) :=
  sort_values_desc (rev t).

(** The values of a multi-valued cell are its pieces between the
    delimiters: a cell without comma-space is one value, a cell that starts
    with a delimiter-free text followed by comma-space lists that text and
    then the values of the rest, and a null cell lists nothing. *)
Definition cut_at_delimiter (values_of : option string -> list string) : Prop :=
  (forall a b, contains_sep a = false ->
     values_of (Some (a ++ ", " ++ b)%string) = a :: values_of (Some b)) /\
  (forall s, contains_sep s = false -> values_of (Some s) = [s]) /\
  values_of None = [].

(** * Properties *)

Section Contract.
(** What the sort by count guarantees whatever its kind: it rearranges the
    table, and the counts come out descending. *)
Variable sort_values : forall A : Type, list (A * nat) -> list (A * nat).
Hypothesis sort_values_perm :
  forall (A : Type) (t : list (A * nat)), sort_values A t ≡ₚ t.
Hypothesis sort_values_descending :
  forall (A : Type) (t : list (A * nat)),
    StronglySorted (fun e1 e2 => (snd e2 <= snd e1)%nat) (sort_values A t).
#[local] Abbreviation value_counts := (value_counts sort_values).
#[local] Abbreviation type_dist := (type_dist sort_values).
#[local] Abbreviation top_genres := (top_genres sort_values).
#[local] Abbreviation rating_dist := (rating_dist sort_values).
#[local] Abbreviation top_countries := (top_countries sort_values).
#[local] Abbreviation release_dist := (release_dist sort_values).
#[local] Abbreviation top_genre_insight := (top_genre_insight sort_values).
#[local] Abbreviation aggregates := (aggregates sort_values).
#[local] Abbreviation session := (session sort_values).
#[local] Abbreviation dashboard_of := (dashboard_of sort_values).

(** ** Cleaning *)

Lemma isna_false {A : Type} (c : option A) : isna c = false <-> c <> None.
Proof. destruct c; simpl; split; congruence. Qed.

Lemma existsb_isna_false (cells : list (option string)) :
  existsb (fun b => b) (map isna cells) = false <-> Forall (fun c => c <> None) cells.
Proof.
  induction cells as [|c cells IH]; simpl.
  - split; [constructor | reflexivity].
  - rewrite orb_false_iff, IH, isna_false. split.
    + intros [Hc Hcs]. by constructor.
    + intros H. inversion H; subst. by split.
Qed.

Lemma row_isna_spec (r : Row) :
  existsb (fun b => b) (row_isna r) = false <-> all_fields_non_null r.
Proof.
  unfold row_isna, all_fields_non_null. cbn [app existsb].
  rewrite !orb_false_iff, !isna_false, existsb_isna_false. tauto.
Qed.

Lemma row_complete_dec (r : Row) :
  negb (existsb (fun b => b) (row_isna r)) = true <-> all_fields_non_null r.
Proof. rewrite negb_true_iff. apply row_isna_spec. Qed.

Lemma filter_kept_in_order {A : Type} (p : A -> bool) (P : A -> Prop) (l : list A) :
  (forall x, p x = true <-> P x) -> kept_in_order P l (List.filter p l).
Proof.
  intros Hp. induction l as [|x l IH]; simpl.
  - constructor.
  - destruct (p x) eqn:E.
    + apply kept_keep; [by apply Hp | done].
    + apply kept_drop; [| done]. intros HP. apply Hp in HP. congruence.
Qed.

Lemma filter_sublist {A : Type} (p : A -> bool) (l : list A) :
  sublist (List.filter p l) l.
Proof.
  induction l as [|x l IH]; simpl; [constructor |].
  destruct (p x); by constructor.
Qed.

Lemma filter_length_le {A : Type} (p : A -> bool) (l : list A) :
  (length (List.filter p l) <= length l)%nat.
Proof. apply sublist_length, filter_sublist. Qed.

Lemma assign_columns_length csv dates years :
  length dates = length csv -> length years = length csv ->
  length (assign_columns csv dates years) = length csv.
Proof.
  revert dates years. induction csv as [|r csv IH]; intros [|d ds] [|y ys]; simpl;
    intros Hd Hy; try lia.
  rewrite IH; lia.
Qed.

Lemma assign_columns_lookup csv dates years i r :
  assign_columns csv dates years !! i = Some r <->
  exists raw d y, csv !! i = Some raw /\ dates !! i = Some d /\
                  years !! i = Some y /\ r = assign_coerced raw d y.
Proof.
  revert dates years i. induction csv as [|raw csv IH]; intros dates years i.
  - simpl. split; [done | intros (? & ? & ? & ? & _); done].
  - destruct dates as [|d ds]; [split; [done | intros (? & ? & ? & _ & ? & _); done] |].
    destruct years as [|y ys];
      [split; [done | intros (? & ? & ? & _ & _ & ? & _); done] |].
    destruct i as [|i]; simpl.
    + split.
      * intros [= <-]. by exists raw, d, y.
      * intros (? & ? & ? & [= <-] & [= <-] & [= <-] & ->). done.
    + apply IH.
Qed.

Lemma truediv_ok (a b : Z) :
  b <> 0 -> truediv a b = Ok (inject_Z a / inject_Z b)%Q.
Proof. intros Hb. unfold truediv. by destruct (Z.eqb_spec b 0). Qed.

Lemma truediv_zero (a : Z) : truediv a 0 = Raise ZeroDivisionError.
Proof. reflexivity. Qed.

Lemma percentage_bounds (a b : Z) :
  0 <= a <= b -> 0 < b ->
  (0 <= inject_Z a / inject_Z b * 100 /\ inject_Z a / inject_Z b * 100 <= 100)%Q.
Proof.
  intros Ha Hb. destruct b as [|p|p]; try lia.
  unfold Qle, Qdiv, Qmult, Qinv, inject_Z. simpl. split; nia.
Qed.

Lemma assign_columns_dates csv dates years :
  length dates = length csv -> length years = length csv ->
  col date_added (assign_columns csv dates years) = dates.
Proof.
  unfold col. revert dates years.
  induction csv as [|r csv IH]; intros [|d ds] [|y ys]; simpl;
    intros Hd Hy; try done.
  f_equal. apply IH; lia.
Qed.

Lemma assign_columns_years csv dates years :
  length dates = length csv -> length years = length csv ->
  col release_year (assign_columns csv dates years) = years.
Proof.
  unfold col. revert dates years.
  induction csv as [|r csv IH]; intros [|d ds] [|y ys]; simpl;
    intros Hd Hy; try done.
  f_equal. apply IH; lia.
Qed.

Lemma assign_columns_raw {B : Type} (field : Row -> B) (raw_field : RawRow -> B)
    csv dates years :
  (forall r d y, field (assign_coerced r d y) = raw_field r) ->
  length dates = length csv -> length years = length csv ->
  col field (assign_columns csv dates years) = map raw_field csv.
Proof.
  intros Hfield. unfold col. revert dates years.
  induction csv as [|r csv IH]; intros [|d ds] [|y ys]; simpl;
    intros Hd Hy; try done.
  rewrite Hfield. f_equal. apply IH; lia.
Qed.

Section CleaningFacts.
Variable to_datetime : list (option string) -> list (option Timestamp).
Variable to_numeric : list (option string) -> list (option Z).
(** The coercions answer cell for cell. *)
Hypothesis to_datetime_length : forall c, length (to_datetime c) = length c.
Hypothesis to_numeric_length : forall c, length (to_numeric c) = length c.

Lemma C1_length_facts (csv : list RawRow) (df_original df : list Row) :
  load_and_clean_data to_datetime to_numeric csv = (df_original, df) ->
  length df_original = length csv /\
  0 <= original_rows df_original - cleaned_rows df <= original_rows df_original.
Proof.
  unfold load_and_clean_data. cbv zeta. intros Heq.
  apply pair_equal_spec in Heq as [<- <-].
  split.
  - apply assign_columns_length;
      [by rewrite to_datetime_length, length_map
      | by rewrite to_numeric_length, length_map].
  - unfold original_rows, cleaned_rows, len, dropna.
    pose proof (filter_length_le
      (fun r => negb (existsb (fun b => b) (row_isna r)))
      (assign_columns csv (to_datetime (map raw_date_added csv))
         (to_numeric (map raw_release_year csv)))). lia.
Qed.

(** C1.  [load_and_clean_data] stores the coerced dates and years in the
    frame, cell for cell, and leaves the other columns as they were read;
    it returns, as the cleaned frame, exactly the rows in which every field
    is non-null after that coercion, in their original order: a row with a
    null in any field is dropped.  The counts of the cleaning summary
    satisfy cleaned + removed = original, and nothing is removed twice. *)
Theorem C1_cleaning_totality (csv : list RawRow) (df_original df : list Row) :
  load_and_clean_data to_datetime to_numeric csv = (df_original, df) ->
  length df_original = length csv /\
  col date_added df_original = to_datetime (map raw_date_added csv) /\
  col release_year df_original = to_numeric (map raw_release_year csv) /\
  (col type df_original = map raw_type csv /\
   col title df_original = map raw_title csv /\
   col director df_original = map raw_director csv /\
   col country df_original = map raw_country csv /\
   col rating df_original = map raw_rating csv /\
   col duration df_original = map raw_duration csv /\
   col listed_in df_original = map raw_listed_in csv /\
   col other df_original = map raw_other csv) /\
  kept_in_order all_fields_non_null df_original df /\
  (forall r, In r df <-> In r df_original /\ all_fields_non_null r) /\
  sublist df df_original /\
  cleaned_rows df + removed df_original df = original_rows df_original /\
  0 <= removed df_original df.
Proof.
  unfold load_and_clean_data. cbv zeta. intros Heq.
  apply pair_equal_spec in Heq as [<- <-].
  assert (Hd : length (to_datetime (map raw_date_added csv)) = length csv)
    by by rewrite to_datetime_length, length_map.
  assert (Hy : length (to_numeric (map raw_release_year csv)) = length csv)
    by by rewrite to_numeric_length, length_map.
  split_and!.
  - by apply assign_columns_length.
  - by apply assign_columns_dates.
  - by apply assign_columns_years.
  - by apply assign_columns_raw.
  - by apply assign_columns_raw.
  - by apply assign_columns_raw.
  - by apply assign_columns_raw.
  - by apply assign_columns_raw.
  - by apply assign_columns_raw.
  - by apply assign_columns_raw.
  - by apply assign_columns_raw.
  - apply filter_kept_in_order, row_complete_dec.
  - intros r. unfold dropna. rewrite filter_In, row_complete_dec. tauto.
  - apply filter_sublist.
  - unfold removed. lia.
  - unfold removed, original_rows, cleaned_rows, len, dropna.
    pose proof (filter_length_le
      (fun r => negb (existsb (fun b => b) (row_isna r)))
      (assign_columns csv (to_datetime (map raw_date_added csv))
         (to_numeric (map raw_release_year csv)))). lia.
Qed.

(** C10.  For a raw dataset with at least one record the removed
    percentage is computed, equals (original - cleaned) / original * 100
    and lies between 0 and 100; for an empty dataset the division raises
    ZeroDivisionError, the divisor being the original row count. *)
Theorem C10_pct_removed (csv : list RawRow) (df_original df : list Row) :
  load_and_clean_data to_datetime to_numeric csv = (df_original, df) ->
  (csv <> [] ->
     exists q, pct_removed df_original df = Ok q /\
       (q == inject_Z (original_rows df_original - cleaned_rows df)
             / inject_Z (original_rows df_original) * 100)%Q /\
       (q * inject_Z (original_rows df_original)
          == 100 * inject_Z (original_rows df_original - cleaned_rows df))%Q /\
       (0 <= q)%Q /\ (q <= 100)%Q) /\
  (csv = [] -> pct_removed df_original df = Raise ZeroDivisionError).
Proof.
  intros Hload.
  destruct (C1_length_facts csv df_original df Hload) as (Hlen & Hrem).
  split.
  - intros Hne.
    assert (Hpos : 0 < original_rows df_original).
    { unfold original_rows, len. rewrite Hlen. destruct csv; simpl; [done | lia]. }
    unfold pct_removed. rewrite truediv_ok by lia. cbn [mbind result_bind mret result_ret].
    eexists. split; [reflexivity |]. unfold removed in *.
    split; [reflexivity |]. split.
    + field. intros H0. unfold Qeq in H0. simpl in H0. lia.
    + apply percentage_bounds; lia.
  - intros ->. destruct df_original; [reflexivity | done].
Qed.
End CleaningFacts.

(** ** Filter stage *)

Lemma getitem_mask_map {A : Type} (p : A -> bool) (l : list A) :
  getitem_mask l (map p l) = List.filter p l.
Proof.
  induction l as [|x l IH]; simpl; [done |].
  destruct (p x); by rewrite IH.
Qed.

Lemma mask_and_map {A : Type} (p q : A -> bool) (l : list A) :
  mask_and (map p l) (map q l) = map (fun x => p x && q x) l.
Proof.
  unfold mask_and. induction l as [|x l IH]; simpl; [done |]. by rewrite IH.
Qed.

Lemma filter_mask_rowwise df selected min_year max_year :
  mask_and (isin (col type df) selected)
           (between (col release_year df) min_year max_year)
  = map (row_passes selected min_year max_year) df.
Proof.
  unfold isin, between, col. rewrite !map_map.
  apply (mask_and_map
    (fun r => match type r with
              | Some s => existsb (String.eqb s) selected
              | None => false
              end)
    (fun r => match release_year r with
              | Some y => (min_year <=? y) && (y <=? max_year)
              | None => false
              end)).
Qed.

Lemma apply_filter_rowwise df selected min_year max_year :
  apply_filter df selected min_year max_year
  = List.filter (row_passes selected min_year max_year) df.
Proof.
  unfold apply_filter. rewrite filter_mask_rowwise. apply getitem_mask_map.
Qed.

Lemma existsb_eqb_In (s : string) (l : list string) :
  existsb (String.eqb s) l = true <-> In s l.
Proof.
  rewrite existsb_exists. split.
  - intros (x & Hx & Heq). apply String.eqb_eq in Heq. by subst.
  - intros Hin. exists s. split; [done | apply String.eqb_refl].
Qed.

Lemma row_passes_spec selected min_year max_year r :
  row_passes selected min_year max_year r = true
  <-> matches_filter selected min_year max_year r.
Proof.
  unfold row_passes, matches_filter. rewrite andb_true_iff. split.
  - intros [Ht Hy]. split.
    + destruct (type r) as [t|]; [| done]. exists t. split; [done |].
      by apply existsb_eqb_In.
    + destruct (release_year r) as [y|]; [| done]. exists y. split; [done |].
      apply andb_true_iff in Hy as [H1 H2]. lia.
  - intros [(t & -> & Hin) (y & -> & Hlo & Hhi)]. split.
    + by apply existsb_eqb_In.
    + apply andb_true_iff. split; lia.
Qed.

(** C2.  The filtered view holds exactly the rows of the cleaned frame whose
    type is among the selected content types and whose release year lies in
    the closed range [min_year, max_year]; it keeps them in the order of the
    cleaned frame, so it is a subsequence of it. *)
Theorem C2_filter_containment (df : list Row) (selected_content_types : list string)
    (min_year max_year : Z) :
  (forall r, In r (apply_filter df selected_content_types min_year max_year) <->
     In r df /\ matches_filter selected_content_types min_year max_year r) /\
  kept_in_order (matches_filter selected_content_types min_year max_year) df
    (apply_filter df selected_content_types min_year max_year) /\
  sublist (apply_filter df selected_content_types min_year max_year) df.
Proof.
  rewrite apply_filter_rowwise. split_and!.
  - intros r. rewrite filter_In, row_passes_spec. tauto.
  - apply filter_kept_in_order. intros r. apply row_passes_spec.
  - apply filter_sublist.
Qed.

(** ** Numeric extraction *)

Lemma take_digits_run (digits rest : string) :
  all_digits digits -> stops_run rest ->
  take_digits (digits ++ rest)%string = digits.
Proof.
  intros Hd Hr. induction digits as [|c d IH]; simpl in *.
  - destruct rest as [|c r]; simpl in *; [done |]. by rewrite Hr.
  - destruct Hd as [Hc Hd]. rewrite Hc. f_equal. by apply IH.
Qed.

Lemma search_digits_skip (pre s : string) :
  no_digit pre -> search_digits (pre ++ s)%string = search_digits s.
Proof.
  intros Hp. induction pre as [|c p IH]; simpl in *; [done |].
  destruct Hp as [Hc Hp]. rewrite Hc. by apply IH.
Qed.

Lemma search_digits_none (s : string) :
  search_digits s = None <-> no_digit s.
Proof.
  induction s as [|c s IH]; simpl.
  - done.
  - unfold no_digit in *. simpl. destruct (is_digit c) eqn:E.
    + split; [done | intros [? _]; done].
    + rewrite IH. tauto.
Qed.

Lemma search_digits_run (pre digits rest : string) :
  no_digit pre -> all_digits digits -> digits <> EmptyString -> stops_run rest ->
  search_digits (pre ++ digits ++ rest)%string = Some digits.
Proof.
  intros Hp Hd Hne Hr. rewrite search_digits_skip by done.
  destruct digits as [|c d]; [done |]. simpl in *.
  destruct Hd as [Hc Hd]. rewrite Hc. by rewrite take_digits_run.
Qed.

Lemma digits_to_number_decimal (acc : Z) (digits : string) :
  digits_to_number acc digits
  = acc * 10 ^ Z.of_nat (String.length digits) + decimal_value digits.
Proof.
  revert acc. induction digits as [|c d IH]; intros acc; simpl String.length;
    cbn [digits_to_number decimal_value].
  - simpl. lia.
  - rewrite IH. rewrite Nat2Z.inj_succ, Z.pow_succ_r by lia. ring.
Qed.

Lemma extract_number_run (pre digits rest : string) :
  no_digit pre -> all_digits digits -> digits <> EmptyString -> stops_run rest ->
  extract_number (Some (pre ++ digits ++ rest)%string) = Some (decimal_value digits).
Proof.
  intros Hp Hd Hne Hr. unfold extract_number.
  rewrite search_digits_run by done. f_equal.
  rewrite digits_to_number_decimal. lia.
Qed.

Lemma extract_number_none (s : string) :
  extract_number (Some s) = None <-> no_digit s.
Proof.
  unfold extract_number. rewrite <- search_digits_none.
  destruct (search_digits s); split; congruence.
Qed.

(** ** Frequency tables *)

Section CountingFacts.
Context {A : Type} `{EqDecision A}.
Implicit Types (x y : A) (l : list A) (t s : list (A * nat)).

Lemma occurrences_app x l1 l2 :
  occurrences x (l1 ++ l2) = (occurrences x l1 + occurrences x l2)%nat.
Proof. unfold occurrences. by rewrite List.filter_app, length_app. Qed.

Lemma occurrences_cons x y l :
  occurrences x (y :: l)
  = ((if decide (y = x) then 1 else 0) + occurrences x l)%nat.
Proof.
  unfold occurrences. simpl. destruct (decide (y = x)) as [->|Hne].
  - by rewrite bool_decide_eq_true_2.
  - by rewrite bool_decide_eq_false_2.
Qed.

Lemma occurrences_pos x l : x ∈ l -> (0 < occurrences x l)%nat.
Proof.
  induction 1 as [x l|x y l _ IH]; rewrite occurrences_cons.
  - destruct (decide (x = x)); [lia | done].
  - lia.
Qed.

Lemma first_pos_lt x l : x ∈ l -> (first_pos x l < length l)%nat.
Proof.
  induction l as [|y l IH]; [by intros ?%elem_of_nil |].
  intros Hin. simpl. destruct (decide (x = y)); [lia |].
  apply elem_of_cons in Hin as [?|Hin]; [done |]. specialize (IH Hin). lia.
Qed.

Lemma first_pos_app_l x l1 l2 :
  x ∈ l1 -> first_pos x (l1 ++ l2) = first_pos x l1.
Proof.
  induction l1 as [|y l1 IH]; [by intros ?%elem_of_nil |].
  intros Hin. simpl. destruct (decide (x = y)); [done |].
  apply elem_of_cons in Hin as [?|Hin]; [done |]. by rewrite IH.
Qed.

Lemma first_pos_snoc_new x l : x ∉ l -> first_pos x (l ++ [x]) = length l.
Proof.
  induction l as [|y l IH]; intros Hnin; simpl.
  - by destruct (decide (x = x)).
  - apply not_elem_of_cons in Hnin as [Hne Hnin].
    destruct (decide (x = y)); [done |]. by rewrite IH.
Qed.

Lemma first_pos_lookup x l : x ∈ l -> l !! first_pos x l = Some x.
Proof.
  induction l as [|y l IH]; [by intros ?%elem_of_nil |].
  intros Hin. simpl. destruct (decide (x = y)) as [->|Hne]; [done |].
  apply elem_of_cons in Hin as [?|Hin]; [done |]. by apply IH.
Qed.

Lemma first_pos_least x l i : l !! i = Some x -> (first_pos x l <= i)%nat.
Proof.
  revert i. induction l as [|y l IH]; intros i; [done |].
  simpl. destruct (decide (x = y)); [lia |].
  destruct i as [|i]; simpl.
  - intros [= ->]. done.
  - intros Hi. specialize (IH _ Hi). lia.
Qed.

(** *** The tally *)

Lemma count_of_bump x y t :
  count_of y (bump x t)
  = if decide (y = x) then S (count_of x t) else count_of y t.
Proof.
  induction t as [|[z n] t IH]; simpl.
  - repeat case_decide; by simplify_eq.
  - destruct (decide (x = z)) as [->|Hxz]; simpl;
      repeat case_decide; simplify_eq; auto.
Qed.

Lemma keys_bump_old x t : x ∈ t.*1 -> (bump x t).*1 = t.*1.
Proof.
  induction t as [|[z n] t IH]; csimpl; [by intros ?%elem_of_nil |].
  intros Hin. destruct (decide (x = z)) as [->|Hxz]; csimpl; [done |].
  apply elem_of_cons in Hin as [?|Hin]; [done |]. by rewrite IH.
Qed.

Lemma keys_bump_new x t : x ∉ t.*1 -> (bump x t).*1 = t.*1 ++ [x].
Proof.
  induction t as [|[z n] t IH]; csimpl; [done |].
  intros [Hne Hnin]%not_elem_of_cons.
  destruct (decide (x = z)); [done |]. csimpl. by rewrite IH.
Qed.

Lemma sum_counts_bump x t : sum_counts (bump x t) = S (sum_counts t).
Proof.
  unfold sum_counts. induction t as [|[z n] t IH]; simpl; [done |].
  destruct (decide (x = z)); simpl; [done |]. rewrite IH. lia.
Qed.

Lemma tally_snoc l x : tally (l ++ [x]) = bump x (tally l).
Proof. unfold tally. by rewrite fold_left_app. Qed.

Lemma count_of_tally x l : count_of x (tally l) = occurrences x l.
Proof.
  induction l as [|y l IH] using rev_ind; [done |].
  rewrite tally_snoc, count_of_bump, occurrences_app, occurrences_cons.
  change (occurrences x []) with 0%nat.
  destruct (decide (x = y)) as [->|Hne].
  - rewrite IH. destruct (decide (y = y)); [lia | done].
  - rewrite IH. destruct (decide (y = x)); [by subst | lia].
Qed.

Lemma keys_tally_elem x l : x ∈ (tally l).*1 <-> x ∈ l.
Proof.
  induction l as [|y l IH] using rev_ind; [done |].
  rewrite tally_snoc, elem_of_app, list_elem_of_singleton.
  destruct (decide (y ∈ (tally l).*1)) as [Hin|Hnin].
  - rewrite keys_bump_old, IH by done. split; [tauto |].
    intros [?| ->]; [done |]. by apply IH.
  - rewrite keys_bump_new, elem_of_app, list_elem_of_singleton, IH by done. done.
Qed.

Lemma keys_tally_NoDup l : NoDup (tally l).*1.
Proof.
  induction l as [|y l IH] using rev_ind; [constructor |].
  rewrite tally_snoc.
  destruct (decide (y ∈ (tally l).*1)) as [Hin|Hnin];
    [by rewrite keys_bump_old | rewrite keys_bump_new by done].
  apply NoDup_app. split_and!; [done | | apply NoDup_singleton].
  intros z Hz ->%list_elem_of_singleton. done.
Qed.

Lemma sum_counts_tally l : sum_counts (tally l) = length l.
Proof.
  induction l as [|y l IH] using rev_ind; [done |].
  rewrite tally_snoc, sum_counts_bump, IH, length_app. simpl. lia.
Qed.

Lemma keys_tally_first l :
  StronglySorted (fun k1 k2 => (first_pos k1 l < first_pos k2 l)%nat) (tally l).*1.
Proof.
  induction l as [|y l IH] using rev_ind; [constructor |].
  assert (Hold : StronglySorted
    (fun k1 k2 => (first_pos k1 (l ++ [y]) < first_pos k2 (l ++ [y]))%nat)
    (tally l).*1).
  { assert (Hk : Forall (fun k => k ∈ l) (tally l).*1).
    { apply Forall_forall. intros k Hk. by apply keys_tally_elem. }
    revert IH Hk. generalize ((tally l).*1). intros ks.
    induction 1 as [|k ks Hs IHs Hall]; intros Hk; [constructor |].
    apply Forall_cons in Hk as [Hk Hks]. constructor; [by apply IHs |].
    rewrite Forall_forall in Hall, Hks |- *. intros k' Hk'.
    rewrite !first_pos_app_l by auto. by apply Hall. }
  rewrite tally_snoc.
  destruct (decide (y ∈ (tally l).*1)) as [Hin|Hnin];
    [by rewrite keys_bump_old | rewrite keys_bump_new by done].
  apply StronglySorted_app_2; [| done | repeat constructor].
  intros k1 k2 Hk1 ->%list_elem_of_singleton.
  rewrite keys_tally_elem in Hk1, Hnin.
  rewrite first_pos_app_l, first_pos_snoc_new by done.
  by apply first_pos_lt.
Qed.

Lemma elem_of_table x n t :
  NoDup t.*1 -> (x, n) ∈ t <-> x ∈ t.*1 /\ count_of x t = n.
Proof.
  induction t as [|[z m] t IH]; simpl; intros Hnd.
  - split; [by intros ?%elem_of_nil | by intros [?%elem_of_nil _]].
  - apply NoDup_cons in Hnd as [Hz Hnd]. rewrite !elem_of_cons, (IH Hnd).
    destruct (decide (x = z)) as [->|Hne].
    + split.
      * intros [[= ->]|[Hin _]]; [by split; [left |] | done].
      * intros [_ ->]. by left.
    + split.
      * intros [[= ? ?]|[Hin Hc]]; [done |]. split; [by right | done].
      * intros [[?|Hin] Hc]; [done |]. by right.
Qed.

Lemma elem_of_tally x n l :
  (x, n) ∈ tally l <-> x ∈ l /\ n = occurrences x l.
Proof.
  rewrite elem_of_table by apply keys_tally_NoDup.
  rewrite keys_tally_elem, count_of_tally. split; intros [? ?]; by split.
Qed.
End CountingFacts.

Section SortingFacts.
Context {A : Type} `{EqDecision A}.
Implicit Types (x y : A) (l : list A) (t s : list (A * nat)) (e : A * nat).

Lemma insert_desc_perm e s : insert_desc e s ≡ₚ e :: s.
Proof.
  induction s as [|h s IH]; simpl; [done |].
  destruct (snd h <=? snd e)%nat; [done |].
  rewrite IH. apply Permutation_swap.
Qed.

Lemma sort_values_desc_perm t : sort_values_desc t ≡ₚ t.
Proof.
  induction t as [|e t IH]; simpl; [done |].
  by rewrite insert_desc_perm, IH.
Qed.

Lemma insert_desc_sorted l e s :
  StronglySorted (ranks_before l) s ->
  Forall (fun e' => (first_pos (fst e) l < first_pos (fst e') l)%nat) s ->
  StronglySorted (ranks_before l) (insert_desc e s).
Proof.
  induction 1 as [|h s Hs IH Hh]; intros Hpos; simpl; [repeat constructor |].
  apply Forall_cons in Hpos as [Hpos_h Hpos_s].
  destruct (Nat.leb_spec (snd h) (snd e)) as [Hle|Hgt].
  - constructor; [by constructor |].
    constructor.
    + unfold ranks_before. lia.
    + rewrite Forall_forall in Hh, Hpos_s |- *. intros e' He'.
      specialize (Hh _ He'). specialize (Hpos_s _ He').
      unfold ranks_before in *. lia.
  - constructor; [by apply IH |].
    rewrite insert_desc_perm. constructor; [| done].
    unfold ranks_before. lia.
Qed.

(** A table whose keys are in order of first occurrence comes out of the
    stable descending sort ordered by count, ties by first occurrence. *)
Lemma sort_values_desc_sorted l t :
  StronglySorted (fun k1 k2 => (first_pos k1 l < first_pos k2 l)%nat) t.*1 ->
  StronglySorted (ranks_before l) (sort_values_desc t).
Proof.
  induction t as [|e t IH]; csimpl; [constructor |].
  intros [Hall Hs]%StronglySorted_cons.
  apply insert_desc_sorted; [by apply IH |].
  rewrite sort_values_desc_perm.
  apply Forall_forall. intros e' He'.
  apply (proj1 (Forall_forall _ _) Hall).
  apply list_elem_of_fmap. by exists e'.
Qed.

(** Sorting a table that is already in that order changes nothing. *)
Lemma insert_desc_head l e s :
  Forall (ranks_before l e) s -> insert_desc e s = e :: s.
Proof.
  destruct s as [|h s]; simpl; [done |].
  intros [Hh _]%Forall_cons. unfold ranks_before in Hh.
  destruct (Nat.leb_spec (snd h) (snd e)); [done | lia].
Qed.

Lemma sort_values_desc_fixed l t :
  StronglySorted (ranks_before l) t -> sort_values_desc t = t.
Proof.
  induction 1 as [|e t Hs IH Hall]; simpl; [done |].
  rewrite IH. by eapply insert_desc_head.
Qed.

Lemma insert_desc_descending e s :
  StronglySorted (fun e1 e2 => (snd e2 <= snd e1)%nat) s ->
  StronglySorted (fun e1 e2 => (snd e2 <= snd e1)%nat) (insert_desc e s).
Proof.
  induction 1 as [|h s Hs IH Hh]; simpl; [repeat constructor |].
  destruct (Nat.leb_spec (snd h) (snd e)) as [Hle|Hgt].
  - constructor; [by constructor |]. constructor; [done |].
    rewrite Forall_forall in Hh |- *. intros e' He'. specialize (Hh _ He'). lia.
  - constructor; [done |]. rewrite insert_desc_perm. constructor; [lia | done].
Qed.

Lemma sort_values_desc_descending t :
  StronglySorted (fun e1 e2 => (snd e2 <= snd e1)%nat) (sort_values_desc t).
Proof.
  induction t as [|e t IH]; simpl; [constructor |]. by apply insert_desc_descending.
Qed.

(** *** [value_counts] *)

Lemma value_counts_perm (column : list (option A)) :
  value_counts column ≡ₚ tally (drop_null column).
Proof. apply sort_values_perm. Qed.

Lemma value_counts_elem (column : list (option A)) x n :
  (x, n) ∈ value_counts column
  <-> x ∈ drop_null column /\ n = occurrences x (drop_null column).
Proof. by rewrite value_counts_perm, elem_of_tally. Qed.

Lemma value_counts_keys (column : list (option A)) x :
  x ∈ (value_counts column).*1 <-> x ∈ drop_null column.
Proof. by rewrite value_counts_perm, keys_tally_elem. Qed.

Lemma value_counts_NoDup (column : list (option A)) :
  NoDup (value_counts column).*1.
Proof. rewrite value_counts_perm. apply keys_tally_NoDup. Qed.

Lemma value_counts_descending (column : list (option A)) :
  StronglySorted (fun e1 e2 => (snd e2 <= snd e1)%nat) (value_counts column).
Proof. apply sort_values_descending. Qed.

(** With a stable sort, equal counts come in the order the values were
    first met. *)
Lemma value_counts_sorted (column : list (option A)) :
  is_stable sort_values ->
  StronglySorted (ranks_before (drop_null column)) (value_counts column).
Proof.
  intros Hstable.
  change (StronglySorted (ranks_before (drop_null column))
            (sort_values A (tally (drop_null column)))).
  rewrite (Hstable A). apply sort_values_desc_sorted, keys_tally_first.
Qed.

Lemma value_counts_sum (column : list (option A)) :
  sum_counts (value_counts column) = length (drop_null column).
Proof.
  unfold sum_counts. rewrite value_counts_perm. apply sum_counts_tally.
Qed.

Lemma sorted_lookup_lt (R : relation (A * nat)) s i j e1 e2 :
  StronglySorted R s -> (i < j)%nat ->
  s !! i = Some e1 -> s !! j = Some e2 -> R e1 e2.
Proof.
  intros Hs Hij Hi Hj. rewrite <- (take_drop j s) in Hs.
  eapply StronglySorted_app_1_elem_of; [exact Hs | |].
  - apply elem_of_take. eauto.
  - apply list_elem_of_lookup. exists 0%nat.
    by rewrite lookup_drop, Nat.add_0_r.
Qed.

Lemma table_length (values : list A) (t : list (A * nat)) :
  t ≡ₚ tally values -> length t = length (remove_dups values).
Proof.
  intros Hperm. rewrite <- (length_fmap fst t).
  apply Permutation_length, NoDup_Permutation.
  - rewrite Hperm. apply keys_tally_NoDup.
  - apply NoDup_remove_dups.
  - intros x. by rewrite Hperm, keys_tally_elem, elem_of_remove_dups.
Qed.

Lemma value_counts_length (column : list (option A)) :
  length (value_counts column) = length (remove_dups (drop_null column)).
Proof. apply table_length, value_counts_perm. Qed.

(** The head of a frequency table dominates the rest whatever the order of
    equal counts: only the descending order of the counts is used. *)
Lemma head_dominates_any_order (k : nat) (values : list A) (t : list (A * nat)) :
  t ≡ₚ tally values ->
  StronglySorted (fun e1 e2 => (snd e2 <= snd e1)%nat) t ->
  forall x n y, (x, n) ∈ head k t -> y ∈ values -> y ∉ (head k t).*1 ->
    (occurrences y values <= n)%nat.
Proof.
  intros Hperm Hs x n y Hx Hy Hny. unfold head in *.
  assert (Hyin : (y, occurrences y values) ∈ t)
    by by rewrite Hperm, elem_of_tally.
  rewrite <- (take_drop k t) in Hyin, Hs.
  apply elem_of_app in Hyin as [Hyin|Hyin].
  { exfalso. apply Hny. apply list_elem_of_fmap. by eexists (_, _). }
  apply (StronglySorted_app_1_elem_of _ _ _ _ _ Hs Hx Hyin).
Qed.

(** What [head(k)] of a table sorted by descending count guarantees,
    whatever the order of equal counts. *)
Lemma table_top_k_by_count (k : nat) (values : list A) (t : list (A * nat)) :
  t ≡ₚ tally values ->
  StronglySorted (fun e1 e2 => (snd e2 <= snd e1)%nat) t ->
  is_top_k_by_count k values (head k t).
Proof.
  intros Hperm Hs. unfold is_top_k_by_count. split_and!.
  - intros x n Hin. apply elem_of_tally. rewrite <- Hperm.
    unfold head in Hin. eapply elem_of_take in Hin as (i & Hi & _).
    apply list_elem_of_lookup. eauto.
  - by apply head_dominates_any_order.
  - intros i j x n y m Hij Hi Hj. unfold head in Hi, Hj.
    apply lookup_take_Some in Hi as [Hi _]. apply lookup_take_Some in Hj as [Hj _].
    apply (sorted_lookup_lt _ _ _ _ _ _ Hs Hij Hi Hj).
  - unfold head. rewrite fmap_take. eapply sublist_NoDup; [| apply sublist_take].
    rewrite Hperm. apply keys_tally_NoDup.
  - unfold head. by rewrite length_take, (table_length values).
Qed.


End SortingFacts.

(** ** Multi-valued fields *)

Lemma split_comma_nonempty (s : string) : split_comma s <> [].
Proof.
  destruct s as [|c s]; simpl; [done |].
  assert (Hkeep : match split_comma s with
                  | h :: t => String c h :: t
                  | [] => [String c EmptyString]
                  end <> []) by by destruct (split_comma s).
  destruct (Ascii.eqb c ","); [| done].
  destruct s as [|c' s']; [done |]. by destruct (Ascii.eqb c' " ").
Qed.

Lemma drop_null_some {A : Type} (l : list A) : drop_null (map Some l) = l.
Proof.
  unfold drop_null. induction l as [|x l IH]; simpl; [done |]. by rewrite IH.
Qed.

Lemma drop_null_app {A : Type} (l1 l2 : list (option A)) :
  drop_null (l1 ++ l2) = drop_null l1 ++ drop_null l2.
Proof. unfold drop_null. apply flat_map_app. Qed.

Lemma explode_cons c cs :
  explode (c :: cs)
  = match c with
    | Some (v :: vs) => map Some (v :: vs)
    | Some [] => [None]
    | None => [None]
    end ++ explode cs.
Proof. reflexivity. Qed.

Lemma explode_values (field : Row -> option string) (view : list Row) :
  drop_null (explode (str_split (col field view))) = listed_values field view.
Proof.
  unfold col, str_split, listed_values. rewrite map_map.
  induction view as [|r view IH]; [done |].
  cbn [map flat_map]. rewrite explode_cons, drop_null_app, IH. f_equal.
  destruct (field r) as [s|]; [| done]. cbn [delimited_values].
  pose proof (split_comma_nonempty s) as Hne.
  destruct (split_comma s) as [|v vs]; [done |].
  apply (drop_null_some (v :: vs)).
Qed.

Lemma length_listed_values (field : Row -> option string) (view : list Row) :
  length (listed_values field view)
  = sum_list_with (fun r => length (delimited_values (field r))) view.
Proof.
  unfold listed_values. induction view as [|r view IH]; simpl; [done |].
  by rewrite length_app, IH.
Qed.

Lemma occurrences_listed_values (field : Row -> option string) (view : list Row) x :
  occurrences x (listed_values field view)
  = sum_list_with (fun r => occurrences x (delimited_values (field r))) view.
Proof.
  unfold listed_values. induction view as [|r view IH]; simpl; [done |].
  by rewrite occurrences_app, IH.
Qed.

Lemma occurrences_zero (x : string) (l : list string) :
  x ∉ l -> occurrences x l = 0%nat.
Proof.
  induction l as [|y l IH]; [done |].
  intros [Hne Hnin]%not_elem_of_cons. rewrite occurrences_cons, IH by done.
  destruct (decide (y = x)); [by subst | done].
Qed.

Lemma explosion_conserved_value_counts (field : Row -> option string) (view : list Row) :
  explosion_conserved field view
    (value_counts (explode (str_split (col field view)))).
Proof.
  split.
  - by rewrite value_counts_sum, explode_values, length_listed_values.
  - intros x n. rewrite value_counts_elem, explode_values.
    rewrite <- occurrences_listed_values. split.
    + intros [Hin ->]. split; [by apply occurrences_pos | done].
    + intros [Hpos ->]. split; [| done].
      destruct (decide (x ∈ listed_values field view)) as [|Hnin]; [done |].
      rewrite occurrences_zero in Hpos by done. lia.
Qed.

Lemma split_comma_unfold (c : ascii) (s : string) :
  split_comma (String c s)
  = if Ascii.eqb c ","
    then match s with
         | String c' s'' =>
             if Ascii.eqb c' " " then EmptyString :: split_comma s''
             else match split_comma s with
                  | h :: t => String c h :: t
                  | [] => [String c EmptyString]
                  end
         | EmptyString =>
             match split_comma s with
             | h :: t => String c h :: t
             | [] => [String c EmptyString]
             end
         end
    else match split_comma s with
         | h :: t => String c h :: t
         | [] => [String c EmptyString]
         end.
Proof. reflexivity. Qed.

Lemma split_comma_cut (a b : string) :
  contains_sep a = false ->
  split_comma (a ++ ", " ++ b)%string = a :: split_comma b.
Proof.
  induction a as [|c a IH]; [done |].
  intros Ha.
  assert (Ha' : contains_sep a = false).
  { destruct a as [|c' a']; [done |]. cbn [contains_sep] in Ha.
    by apply orb_false_iff in Ha as [_ Ha]. }
  specialize (IH Ha').
  change ((String c a ++ ", " ++ b)%string)
    with (String c (a ++ ", " ++ b)%string).
  rewrite split_comma_unfold, IH.
  destruct (Ascii.eqb c ",") eqn:Ec; [| done].
  destruct a as [|c' a']; [done |].
  cbn [contains_sep] in Ha. apply orb_false_iff in Ha as [Hcc _].
  rewrite Ec in Hcc. simpl in Hcc.
  change ((String c' a' ++ ", " ++ b)%string)
    with (String c' (a' ++ ", " ++ b)%string).
  cbv iota. by rewrite Hcc.
Qed.

Lemma split_comma_one (s : string) :
  contains_sep s = false -> split_comma s = [s].
Proof.
  induction s as [|c s IH]; [done |].
  intros Hs. cbn [contains_sep] in Hs. cbn [split_comma].
  destruct s as [|c' s'].
  - simpl. by destruct (Ascii.eqb c ",").
  - apply orb_false_iff in Hs as [Hcc Hs']. rewrite (IH Hs').
    destruct (Ascii.eqb c ","); [| done].
    simpl in Hcc. by rewrite Hcc.
Qed.

Lemma delimited_values_cut : cut_at_delimiter delimited_values.
Proof.
  split_and!.
  - intros a b Ha. by apply split_comma_cut.
  - intros s Hs. by apply split_comma_one.
  - done.
Qed.


(** C5.  A multi-valued cell is cut at every comma-space, so a cell
    "A, B" lists A and lists B.  For the country and the genre field alike,
    the per-value counts of the exploded field add up to the number of
    values so delimited, summed over the rows of the view, and the count of
    a value is the number of times the rows list it: each listing weighs one
    unit, whatever the number of values its row lists. *)
Theorem C5_explosion_conservation (view : list Row) :
  cut_at_delimiter delimited_values /\
  explosion_conserved country view (value_counts (countries_list view)) /\
  explosion_conserved listed_in view (value_counts (genres_list view)).
Proof.
  split; [apply delimited_values_cut |].
  split; apply explosion_conserved_value_counts.
Qed.

(** ** Statements on the store *)

Lemma bind_ok {A B : Type} (m : M A) (k : A -> M B) (h h1 : store) (a : A) :
  m h = Ok (a, h1) -> (m ≫= k) h = k a h1.
Proof. intros Hm. unfold mbind, M_bind. by rewrite Hm. Qed.

Lemma lift_ok {A : Type} (r : result A) (a : A) (h : store) :
  r = Ok a -> lift r h = Ok (a, h).
Proof. by intros ->. Qed.

Lemma read_ok (l : loc) (F : DataFrame) (h : store) :
  h !! l = Some F -> read l h = Ok (F, h).
Proof. intros Hl. unfold read. by rewrite Hl. Qed.

Lemma fresh_None (h : store) : h !! fresh (dom h) = None.
Proof. apply not_elem_of_dom, is_fresh. Qed.

Lemma getitem_ok (l : loc) (mask_of : list Row -> list bool) (F : DataFrame) (h : store) :
  h !! l = Some F ->
  getitem l mask_of h
  = Ok (fresh (dom h),
        <[fresh (dom h) :=
            {| rows := getitem_mask (rows F) (mask_of (rows F));
               added := (fun c => getitem_mask c (mask_of (rows F))) <$> added F |}]> h).
Proof. intros Hl. unfold getitem. by rewrite (bind_ok _ _ _ _ _ (read_ok _ _ _ Hl)). Qed.

Lemma copy_ok (l : loc) (F : DataFrame) (h : store) :
  h !! l = Some F ->
  copy l h = Ok (fresh (dom h), <[fresh (dom h) := F]> h).
Proof. intros Hl. unfold copy. by rewrite (bind_ok _ _ _ _ _ (read_ok _ _ _ Hl)). Qed.

Lemma setitem_ok (l : loc) (name : string) (column : list (option Z))
    (F : DataFrame) (h : store) :
  h !! l = Some F ->
  setitem l name column h
  = Ok (tt, <[l := {| rows := rows F; added := <[name := column]> (added F) |}]> h).
Proof. intros Hl. unfold setitem. by rewrite Hl. Qed.

Lemma getcol_ok (l : loc) (name : string) (column : list (option Z))
    (F : DataFrame) (h : store) :
  h !! l = Some F -> added F !! name = Some column ->
  getcol l name h = Ok (column, h).
Proof.
  intros Hl Hc. unfold getcol.
  rewrite (bind_ok _ _ _ _ _ (read_ok _ _ _ Hl)). by rewrite Hc.
Qed.

Lemma eq_scalar_rowwise (view : list Row) (kind : string) :
  getitem_mask view (eq_scalar (col type view) kind)
  = List.filter (fun r => bool_decide (type r = Some kind)) view.
Proof.
  unfold eq_scalar, col. rewrite map_map, getitem_mask_map.
  apply filter_ext. intros r. destruct (type r) as [s|]; [| done].
  destruct (String.eqb_spec s kind) as [->|Hne].
  - by rewrite bool_decide_eq_true_2.
  - rewrite bool_decide_eq_false_2; [done | congruence].
Qed.

Lemma drop_null_extract (rs : list Row) :
  drop_null (str_extract_float (col duration rs))
  = flat_map (fun r' => match extract_number (duration r') with
                        | Some n => [n]
                        | None => []
                        end) rs.
Proof.
  unfold drop_null, str_extract_float, col. rewrite map_map.
  induction rs as [|r rs IH]; simpl; [done |]. rewrite IH.
  by destruct (extract_number (duration r)).
Qed.

(** One duration block (lines 265-290 or 294-319): the selection is copied,
    the new column goes to the copy, and every object that was in the store
    before the block is as it was. *)
Lemma duration_block_run (kind column_name message : string) (lf : loc)
    (F : DataFrame) (h : store) :
  h !! lf = Some F ->
  exists h',
    (selected ← getitem lf (fun rs => eq_scalar (col type rs) kind);
     frame ← copy selected;
     f ← read frame;
     if 0 <? len (rows f) then
       _ ← setitem frame column_name (str_extract_float (col duration (rows f)));
       x ← getcol frame column_name;
       mret (Histogram (drop_null x) (mean x))
     else mret (PanelInfo message)) h
    = Ok (duration_panel kind message (rows F), h') /\ h ⊆ h'.
Proof.
  intros Hlf.
  rewrite (bind_ok _ _ _ _ _ (getitem_ok _ _ _ _ Hlf)).
  set (l1 := fresh (dom h)).
  set (F1 := {| rows := getitem_mask (rows F) (eq_scalar (col type (rows F)) kind);
                added := _ |}).
  set (h1 := <[l1 := F1]> h).
  assert (Hl1 : h1 !! l1 = Some F1) by apply lookup_insert_eq.
  rewrite (bind_ok _ _ _ _ _ (copy_ok _ _ _ Hl1)).
  set (l2 := fresh (dom h1)). set (h2 := <[l2 := F1]> h1).
  assert (Hl2 : h2 !! l2 = Some F1) by apply lookup_insert_eq.
  rewrite (bind_ok _ _ _ _ _ (read_ok _ _ _ Hl2)).
  assert (Hh1 : h ⊆ h1) by apply insert_subseteq, fresh_None.
  assert (Hh2 : h1 ⊆ h2) by apply insert_subseteq, fresh_None.
  unfold duration_panel. rewrite <- eq_scalar_rowwise.
  change (getitem_mask (rows F) (eq_scalar (col type (rows F)) kind)) with (rows F1).
  destruct (rows F1) as [|r rs] eqn:Erows.
  - exists h2. split; [done | by etrans].
  - replace (0 <? len (r :: rs)) with true by reflexivity.
    rewrite (bind_ok _ _ _ _ _ (setitem_ok _ _ _ _ _ Hl2)).
    set (F2 := {| rows := rows F1; added := _ |}).
    set (h3 := <[l2 := F2]> h2).
    assert (Hl3 : h3 !! l2 = Some F2) by apply lookup_insert_eq.
    assert (Hc : added F2 !! column_name
                 = Some (str_extract_float (col duration (r :: rs))))
      by apply lookup_insert_eq.
    rewrite (bind_ok _ _ _ _ _ (getcol_ok _ _ _ _ _ Hl3 Hc)).
    exists h3. split.
    + unfold mret, M_ret. rewrite drop_null_extract.
      unfold str_extract_float, col. by rewrite map_map.
    + etrans; [exact Hh1 |]. unfold h3, h2. rewrite insert_insert_eq.
      apply insert_subseteq, fresh_None.
Qed.

Lemma movie_durations_run (lf : loc) (F : DataFrame) (h : store) :
  h !! lf = Some F ->
  exists h', movie_durations lf h
             = Ok (duration_panel "Movie" "No movies in selected filters" (rows F), h')
             /\ h ⊆ h'.
Proof. apply (duration_block_run "Movie" "duration_min"). Qed.

Lemma show_seasons_run (lf : loc) (F : DataFrame) (h : store) :
  h !! lf = Some F ->
  exists h', show_seasons lf h
             = Ok (duration_panel "TV Show" "No TV shows in selected filters" (rows F), h')
             /\ h ⊆ h'.
Proof. apply (duration_block_run "TV Show" "seasons"). Qed.

(** The aggregation pass: it succeeds whenever the three insights do, it
    computes every aggregate from the rows the view had on entry, and it
    leaves every object of the store as it was. *)
Lemma aggregates_run (lf : loc) (F : DataFrame) (h : store) (i1 i2 i3 : Insight) :
  h !! lf = Some F ->
  content_mix_insight (rows F) = Ok i1 ->
  top_genre_insight (rows F) = Ok i2 ->
  avg_year_insight (rows F) = Ok i3 ->
  exists h', aggregates lf h = Ok (dashboard_of (rows F) i1 i2 i3, h') /\ h ⊆ h'.
Proof.
  intros Hlf H1 H2 H3. unfold aggregates.
  rewrite (bind_ok _ _ _ _ _ (read_ok _ _ _ Hlf)). cbv zeta.
  destruct (movie_durations_run lf F h Hlf) as (h1 & E1 & S1).
  rewrite (bind_ok _ _ _ _ _ E1).
  assert (Hlf1 : h1 !! lf = Some F) by by eapply lookup_weaken.
  destruct (show_seasons_run lf F h1 Hlf1) as (h2 & E2 & S2).
  rewrite (bind_ok _ _ _ _ _ E2).
  assert (Hlf2 : h2 !! lf = Some F) by by eapply lookup_weaken.
  rewrite (bind_ok _ _ _ _ _ (read_ok _ _ _ Hlf2)).
  rewrite (bind_ok _ _ _ _ _ (lift_ok _ _ _ H1)).
  rewrite (bind_ok _ _ _ _ _ (lift_ok _ _ _ H2)).
  rewrite (bind_ok _ _ _ _ _ (lift_ok _ _ _ H3)).
  exists h2. split; [done | by etrans].
Qed.

Lemma filter_stage_run (df : loc) (F : DataFrame) (h : store)
    (selected : list string) (min_year max_year : Z) :
  h !! df = Some F ->
  filter_stage df selected min_year max_year h
  = Ok (fresh (dom h),
        <[fresh (dom h) := filtered_frame F selected min_year max_year]> h).
Proof. intros Hdf. unfold filter_stage. by rewrite (getitem_ok _ _ _ _ Hdf). Qed.

(** ** Insights *)

Lemma len_type_selection (view : list Row) (kind : string) :
  len (getitem_mask view (eq_scalar (col type view) kind))
  = Z.of_nat (count_type kind view).
Proof. by rewrite eq_scalar_rowwise. Qed.

Lemma truediv_counts (m s : nat) :
  (0 < s)%nat ->
  exists q, truediv (Z.of_nat m) (Z.of_nat s) = Ok q /\
            (q == Z.of_nat m # Pos.of_nat s)%Q.
Proof.
  intros Hs. rewrite truediv_ok by lia. eexists. split; [reflexivity |].
  destruct s as [|s]; [lia |].
  unfold Qeq, Qdiv, Qmult, Qinv, inject_Z. simpl. lia.
Qed.

(** C7.  When the view holds at least one TV Show row the content-mix
    insight is the quotient of the number of Movie rows by the number of TV
    Show rows; when it holds none, the insight is the message that only
    movies are selected and no division takes place. *)
Theorem C7_content_mix (view : list Row) :
  ((0 < count_type "TV Show" view)%nat ->
     exists ratio, content_mix_insight view = Ok (ContentMixRatio ratio) /\
       (ratio == Z.of_nat (count_type "Movie" view)
                 # Pos.of_nat (count_type "TV Show" view))%Q) /\
  (count_type "TV Show" view = 0%nat ->
     content_mix_insight view = Ok OnlyMoviesSelected).
Proof.
  unfold content_mix_insight. cbv zeta. rewrite !len_type_selection. split.
  - intros Hs. replace (0 <? Z.of_nat (count_type "TV Show" view)) with true
      by (symmetry; apply Z.ltb_lt; lia).
    destruct (truediv_counts (count_type "Movie" view) _ Hs) as (q & Hq & Heq).
    rewrite Hq. by exists q.
  - by intros ->.
Qed.

Lemma col_some {A : Type} (field : Row -> option A) (view : list Row) :
  Forall (fun r => field r <> None) view ->
  exists values, col field view = map Some values /\ length values = length view.
Proof.
  induction 1 as [|r view Hr _ (values & Hv & Hlen)].
  - by exists [].
  - destruct (field r) as [v|] eqn:E; [| done].
    exists (v :: values). unfold col in *. simpl. rewrite E, Hv, Hlen. done.
Qed.

Lemma mean_some (v : Z) (vs : list Z) :
  mean (map Some (v :: vs)) = Some (arithmetic_mean (v :: vs)).
Proof. unfold mean. by rewrite drop_null_some. Qed.

Lemma int_of_quotient (s n : Z) :
  0 < n -> int_of_float (Some (inject_Z s / inject_Z n)%Q) = Ok (Z.quot s n).
Proof.
  intros Hn. destruct n as [|p|p]; try lia.
  unfold int_of_float, Qdiv, Qmult, Qinv, inject_Z. simpl.
  by rewrite Z.mul_1_r.
Qed.

Lemma quot_truncates (s n : Z) :
  0 < n ->
  (0 <= s -> Z.quot s n * n <= s < (Z.quot s n + 1) * n) /\
  (s <= 0 -> (Z.quot s n - 1) * n < s <= Z.quot s n * n).
Proof.
  intros Hn. pose proof (Z.quot_rem' s n) as Hqr. split; intros Hs.
  - pose proof (Z.rem_bound_pos s n Hs Hn). nia.
  - pose proof (Z.rem_bound_pos (- s) n ltac:(lia) Hn) as Hb.
    pose proof (Z.rem_opp_l' (- s) n) as Ho. rewrite Z.opp_involutive in Ho. nia.
Qed.

Lemma avg_year_insight_value (view : list Row) (years : list Z) :
  view <> [] ->
  col release_year view = map Some years ->
  avg_year_insight view
  = Ok (AverageReleaseYear (Z.quot (sum_Z years) (len years))).
Proof.
  intros Hne Hcol. unfold avg_year_insight.
  replace (0 <? len view) with true by by destruct view.
  cbv zeta. rewrite Hcol. destruct years as [|v vs].
  - destruct view; [done | discriminate Hcol].
  - rewrite mean_some. unfold arithmetic_mean. rewrite int_of_quotient; [done |].
    unfold len. simpl. lia.
Qed.

(** C8 (as the code has it).  For a non-empty view whose release years are
    all present, the reported average release year is the arithmetic mean of
    the release years truncated toward zero: the integer part of the mean,
    not the integer nearest to it. *)
Theorem C8_average_release_year (view : list Row) :
  view <> [] ->
  Forall (fun r => release_year r <> None) view ->
  exists years y,
    col release_year view = map Some years /\
    length years = length view /\
    avg_year_insight view = Ok (AverageReleaseYear y) /\
    y = Z.quot (sum_Z years) (len years) /\
    (0 <= sum_Z years -> y * len years <= sum_Z years < (y + 1) * len years) /\
    (sum_Z years <= 0 -> (y - 1) * len years < sum_Z years <= y * len years).
Proof.
  intros Hne Hall.
  destruct (col_some release_year view Hall) as (years & Hcol & Hlen).
  exists years, (Z.quot (sum_Z years) (len years)).
  assert (Hpos : 0 < len years).
  { unfold len. rewrite Hlen. destruct view; [done | simpl; lia]. }
  split_and!; [done | done | by apply avg_year_insight_value | done | |].
  - by apply quot_truncates.
  - by apply quot_truncates.
Qed.

(** C8, the claim as worded fails: for release years 2020, 2021, 2021 the
    mean is 6062/3, whose nearest integer is 2021, and the insight reports
    2020. *)
Lemma C8_counterexample :
  sample_years <> [] /\
  Forall all_fields_non_null sample_years /\
  drop_null (col release_year sample_years) = [2020; 2021; 2021] /\
  avg_year_insight sample_years = Ok (AverageReleaseYear 2020) /\
  nearest_integer (arithmetic_mean [2020; 2021; 2021]) 2021 /\
  ~ nearest_integer (arithmetic_mean [2020; 2021; 2021]) 2020.
Proof.
  split_and!; [done | | reflexivity | reflexivity | |].
  - repeat constructor; done.
  - unfold nearest_integer. vm_compute. discriminate.
  - unfold nearest_integer. vm_compute. intros H. by apply H.
Qed.

(** ** Totality of the insights on cleaned views *)

Lemma content_mix_total (view : list Row) :
  exists i, content_mix_insight view = Ok i.
Proof.
  unfold content_mix_insight. cbv zeta.
  destruct (Z.ltb_spec 0 (len (getitem_mask view (eq_scalar (col type view) "TV Show"))))
    as [Hpos|Hle].
  - rewrite truediv_ok by lia. by eexists.
  - by eexists.
Qed.

Lemma top_genre_total (view : list Row) :
  Forall (fun r => listed_in r <> None) view ->
  exists i, top_genre_insight view = Ok i.
Proof.
  intros Hall. unfold top_genre_insight. destruct view as [|r view].
  - by eexists.
  - replace (0 <? len (r :: view)) with true by reflexivity.
    apply Forall_cons in Hall as [Hr _].
    destruct (listed_in r) as [s|] eqn:Es; [| done].
    pose proof (split_comma_nonempty s) as Hne.
    destruct (split_comma s) as [|v vs] eqn:Ev; [done |].
    assert (Hv : v ∈ (value_counts (genres_list (r :: view))).*1).
    { apply value_counts_keys. unfold genres_list. rewrite explode_values.
      unfold listed_values. simpl. rewrite Es. simpl. rewrite Ev. by left. }
    destruct (value_counts (genres_list (r :: view))) as [|[k n] t].
    + by apply elem_of_nil in Hv.
    + by eexists.
Qed.

Lemma avg_year_total (view : list Row) :
  Forall (fun r => release_year r <> None) view ->
  exists i, avg_year_insight view = Ok i.
Proof.
  intros Hall. destruct view as [|r view]; [by eexists |].
  destruct (col_some release_year (r :: view) Hall) as (years & Hcol & _).
  eexists. by apply (avg_year_insight_value (r :: view) years).
Qed.

Lemma cleaned_listed_in (view : list Row) :
  Forall all_fields_non_null view -> Forall (fun r => listed_in r <> None) view.
Proof.
  intros Hall. eapply Forall_impl; [exact Hall |].
  unfold all_fields_non_null. tauto.
Qed.

Lemma cleaned_release_year (view : list Row) :
  Forall all_fields_non_null view -> Forall (fun r => release_year r <> None) view.
Proof.
  intros Hall. eapply Forall_impl; [exact Hall |].
  unfold all_fields_non_null. tauto.
Qed.

Lemma apply_filter_cleaned (df : list Row) selected min_year max_year :
  Forall all_fields_non_null df ->
  Forall all_fields_non_null (apply_filter df selected min_year max_year).
Proof.
  rewrite apply_filter_rowwise. intros Hall.
  apply List.Forall_forall. intros r [Hin _]%filter_In.
  by apply (proj1 (List.Forall_forall _ _) Hall).
Qed.

Lemma apply_filter_degenerate (df : list Row) selected min_year max_year :
  selected = [] \/ max_year < min_year ->
  apply_filter df selected min_year max_year = [].
Proof.
  intros Hdeg. rewrite apply_filter_rowwise.
  induction df as [|r df IH]; simpl; [done |].
  replace (row_passes selected min_year max_year r) with false; [done |].
  symmetry. apply not_true_is_false. rewrite row_passes_spec.
  intros [(t & _ & Hin) (y & _ & Hlo & Hhi)].
  destruct Hdeg as [->|Hlt]; [done | lia].
Qed.

(** ** The whole run *)

Lemma session_run (df : loc) (F : DataFrame) (h : store)
    (selected : list string) (min_year max_year : Z) (i1 i2 i3 : Insight) :
  let view := apply_filter (rows F) selected min_year max_year in
  let lf := fresh (dom h) in
  let h1 := <[lf := filtered_frame F selected min_year max_year]> h in
  h !! df = Some F ->
  content_mix_insight view = Ok i1 ->
  top_genre_insight view = Ok i2 ->
  avg_year_insight view = Ok i3 ->
  exists h',
    filter_stage df selected min_year max_year h = Ok (lf, h1) /\
    aggregates lf h1 = Ok (dashboard_of view i1 i2 i3, h') /\
    session df selected min_year max_year h
    = Ok ((lf, dashboard_of view i1 i2 i3), h') /\
    h ⊆ h1 /\ h1 ⊆ h'.
Proof.
  intros view lf h1 Hdf H1 H2 H3.
  pose proof (filter_stage_run df F h selected min_year max_year Hdf) as Hf.
  assert (Hlf : h1 !! lf = Some (filtered_frame F selected min_year max_year))
    by apply lookup_insert_eq.
  destruct (aggregates_run lf _ h1 i1 i2 i3 Hlf H1 H2 H3) as (h' & Ha & Hsub).
  exists h'. split_and!; [done | done | | apply insert_subseteq, fresh_None | done].
  unfold session. rewrite (bind_ok _ _ _ _ _ Hf).
  by rewrite (bind_ok _ _ _ _ _ Ha).
Qed.

Lemma sort_values_nil (A : Type) : sort_values A [] = [].
Proof. apply Permutation_nil_r. by rewrite sort_values_perm. Qed.

Lemma dashboard_of_empty :
  dashboard_of [] OnlyMoviesSelected NoDataAvailable NoDataAvailable
  = dashboard_shown_on_empty_view.
Proof.
  unfold dashboard_of, dashboard_shown_on_empty_view, type_dist, top_genres,
    rating_dist, top_countries, release_dist, value_counts.
  cbn [col map genres_list countries_list str_split explode flat_map drop_null
       tally fold_left].
  rewrite !sort_values_nil. reflexivity.
Qed.

(** C6 (what the code does).  A filter with no content type selected, or
    with a year range whose lower bound exceeds its upper bound, selects the
    empty view, and the run raises nothing: the metrics are zero, the tables
    empty, the duration panels show their messages, and the top-genre and
    average-year boxes show "No data available".  The content-mix box does
    not: it tests the number of shows only, and on the empty view it shows
    "Only movies selected". *)
Theorem C6_empty_view_content_mix (h : store) (df : loc) (F : DataFrame)
    (selected_content_types : list string) (min_year max_year : Z) :
  h !! df = Some F ->
  selected_content_types = [] \/ max_year < min_year ->
  apply_filter (rows F) selected_content_types min_year max_year = [] /\
  (exists lf d h',
     session df selected_content_types min_year max_year h = Ok ((lf, d), h') /\
     rows <$> h' !! lf = Some [] /\
     d = dashboard_shown_on_empty_view /\
     insight_genre d = NoDataAvailable /\
     insight_year d = NoDataAvailable /\
     insight_mix d = OnlyMoviesSelected /\
     insight_mix d <> NoDataAvailable) /\
  (forall (lf : loc) (V : DataFrame), h !! lf = Some V -> rows V = [] ->
     exists h', aggregates lf h = Ok (dashboard_shown_on_empty_view, h') /\
                rows <$> h' !! lf = Some []).
Proof.
  intros Hdf Hdeg.
  pose proof (apply_filter_degenerate (rows F) _ min_year max_year Hdeg) as Hempty.
  split_and!; [done | |].
  - destruct (session_run df F h selected_content_types min_year max_year
                OnlyMoviesSelected NoDataAvailable NoDataAvailable Hdf)
      as (h' & _ & _ & Hs & _ & Hsub); [by rewrite Hempty..|].
    rewrite Hempty, dashboard_of_empty in Hs.
    exists (fresh (dom h)), dashboard_shown_on_empty_view, h'.
    split_and!; [exact Hs | | done..].
    erewrite (lookup_weaken _ h'); [| apply lookup_insert_eq | exact Hsub].
    simpl. by rewrite Hempty.
  - intros lf V Hlf HV.
    destruct (aggregates_run lf V h OnlyMoviesSelected NoDataAvailable
                NoDataAvailable Hlf) as (h' & Ha & Hsub); [by rewrite HV..|].
    rewrite HV, dashboard_of_empty in Ha. exists h'. split; [exact Ha |].
    rewrite (lookup_weaken _ _ _ _ Hlf Hsub). simpl. by rewrite HV.
Qed.

(** C9.  On a cleaned store the filter stage and the aggregation pass both
    run to completion, and neither changes an object that existed before it
    started: the cleaned frame is afterwards what it was, the filtered view
    is a new object that is after the aggregation what the filter made it,
    and the duration and seasons columns went to copies allocated by the
    pass itself. *)
Theorem C9_store_unchanged (h : store) (df : loc) (F : DataFrame)
    (selected_content_types : list string) (min_year max_year : Z) :
  h !! df = Some F ->
  Forall all_fields_non_null (rows F) ->
  exists lf d h1 h',
    filter_stage df selected_content_types min_year max_year h = Ok (lf, h1) /\
    aggregates lf h1 = Ok (d, h') /\
    session df selected_content_types min_year max_year h = Ok ((lf, d), h') /\
    h !! lf = None /\
    h ⊆ h1 /\ h1 ⊆ h' /\
    h1 !! lf = Some (filtered_frame F selected_content_types min_year max_year) /\
    h' !! lf = Some (filtered_frame F selected_content_types min_year max_year) /\
    h1 !! df = Some F /\ h' !! df = Some F.
Proof.
  intros Hdf Hclean.
  pose proof (apply_filter_cleaned _ selected_content_types min_year max_year Hclean)
    as Hview.
  destruct (content_mix_total
              (apply_filter (rows F) selected_content_types min_year max_year))
    as (i1 & H1).
  destruct (top_genre_total _ (cleaned_listed_in _ Hview)) as (i2 & H2).
  destruct (avg_year_total _ (cleaned_release_year _ Hview)) as (i3 & H3).
  destruct (session_run df F h selected_content_types min_year max_year
              i1 i2 i3 Hdf H1 H2 H3) as (h' & Hf & Ha & Hs & Hsub1 & Hsub2).
  eexists _, _, _, h'. split_and!; [exact Hf | exact Ha | exact Hs | ..].
  - apply fresh_None.
  - done.
  - done.
  - apply lookup_insert_eq.
  - eapply lookup_weaken; [apply lookup_insert_eq | done].
  - by eapply lookup_weaken.
  - eapply lookup_weaken; [| exact Hsub2]. by eapply lookup_weaken.
Qed.

(** ** Numeric extraction, completed *)

Lemma take_digits_split (s : string) :
  exists rest, s = (take_digits s ++ rest)%string /\
               all_digits (take_digits s) /\ stops_run rest.
Proof.
  induction s as [|c s (rest & Hs & Hd & Hr)]; simpl.
  - by exists EmptyString.
  - destruct (is_digit c) eqn:E.
    + exists rest. simpl. split_and!; [by rewrite Hs at 1 | done..].
    + by exists (String c s).
Qed.

Lemma search_digits_split (s digits : string) :
  search_digits s = Some digits ->
  exists pre rest, s = (pre ++ digits ++ rest)%string /\ no_digit pre /\
                   all_digits digits /\ digits <> EmptyString /\ stops_run rest.
Proof.
  induction s as [|c s IH]; simpl; [done |].
  destruct (is_digit c) eqn:E.
  - intros [= <-]. destruct (take_digits_split s) as (rest & Hs & Hd & Hr).
    exists EmptyString, rest. simpl. split_and!; [by rewrite Hs at 1 | done..].
  - intros (pre & rest & -> & Hp & Hd & Hne & Hr)%IH.
    exists (String c pre), rest. simpl. split_and!; done.
Qed.

(** C3 (as the code has it).  The extraction takes the leftmost maximal run
    of decimal digits, wherever in the text it starts, and reads it as a
    decimal number; it yields null exactly when the text holds no digit (or
    the cell is null).  So "3 Seasons" gives 3, "90 min" gives 90 and ""
    gives null.  A row whose duration gives null adds nothing to the
    histogram of its panel, and the panel leaves the filtered view as it
    was. *)
Theorem C3_numeric_extraction :
  (forall s n, extract_number (Some s) = Some n <->
     exists pre digits rest,
       s = (pre ++ digits ++ rest)%string /\ no_digit pre /\ all_digits digits /\
       digits <> EmptyString /\ stops_run rest /\ n = decimal_value digits) /\
  (forall s, extract_number (Some s) = None <-> no_digit s) /\
  extract_number None = None /\
  extract_number (Some "3 Seasons") = Some 3 /\
  extract_number (Some "90 min") = Some 90 /\
  extract_number (Some "") = None /\
  (forall (h : store) (lf : loc) (V : DataFrame), h !! lf = Some V ->
     exists h1 h2,
       movie_durations lf h
       = Ok (duration_panel "Movie" "No movies in selected filters" (rows V), h1) /\
       h1 !! lf = Some V /\
       show_seasons lf h
       = Ok (duration_panel "TV Show" "No TV shows in selected filters" (rows V), h2) /\
       h2 !! lf = Some V).
Proof.
  split_and!; try reflexivity.
  - intros s n. split.
    + unfold extract_number. destruct (search_digits s) as [d|] eqn:E; [| done].
      intros [= <-]. apply search_digits_split in E
        as (pre & rest & -> & Hp & Hd & Hne & Hr).
      exists pre, d, rest. split_and!; try done.
      rewrite digits_to_number_decimal. lia.
    + intros (pre & digits & rest & -> & Hp & Hd & Hne & Hr & ->).
      by apply extract_number_run.
  - apply extract_number_none.
  - intros h lf V Hlf.
    destruct (movie_durations_run lf V h Hlf) as (h1 & E1 & S1).
    destruct (show_seasons_run lf V h Hlf) as (h2 & E2 & S2).
    exists h1, h2. split_and!; [done | by eapply lookup_weaken | done |
                                by eapply lookup_weaken].
Qed.

(** C3, the claim as worded fails: a text that starts with a non-digit still
    yields the number of its first digit run. *)
Lemma C3_counterexample :
  is_digit "S" = false /\
  extract_number (Some "Season 3 of 90") = Some 3 /\
  ~ (forall c rest, is_digit c = false ->
       extract_number (Some (String c rest)) = None).
Proof.
  split_and!; [reflexivity | reflexivity |].
  intros Hclaim. specialize (Hclaim "S"%char "eason 3 of 90" eq_refl).
  discriminate Hclaim.
Qed.

(** ** The splitting of multi-valued cells *)

Lemma join_comma_cons (c : ascii) (p : string) (rest : list string) :
  join_comma (String c p :: rest) = String c (join_comma (p :: rest)).
Proof. by destruct rest. Qed.

(** Joining the pieces with comma-space gives the text back. *)
Lemma join_split_comma (s : string) : join_comma (split_comma s) = s.
Proof.
  assert (Hboth : forall n s, (String.length s <= n)%nat ->
                              join_comma (split_comma s) = s).
  { clear s. induction n as [|n IH]; intros s Hlen.
    - destruct s; [done | simpl in Hlen; lia].
    - destruct s as [|c s']; [done |]. simpl in Hlen.
      assert (Hkeep : join_comma (match split_comma s' with
                                  | h :: t => String c h :: t
                                  | [] => [String c EmptyString]
                                  end) = String c s').
      { pose proof (IH s' ltac:(lia)) as Hs'.
        pose proof (split_comma_nonempty s') as Hne.
        destruct (split_comma s') as [|p rest]; [done |].
        by rewrite join_comma_cons, Hs'. }
      cbn [split_comma].
      destruct (Ascii.eqb_spec c ",") as [->|_]; [| exact Hkeep].
      destruct s' as [|c' s'']; [exact Hkeep |].
      destruct (Ascii.eqb_spec c' " ") as [->|_]; [| exact Hkeep].
      simpl in Hlen. pose proof (IH s'' ltac:(lia)) as Hs''.
      pose proof (split_comma_nonempty s'') as Hne.
      cbn [join_comma]. destruct (split_comma s'') as [|p rest]; [done |].
      by rewrite Hs''. }
  by apply (Hboth (String.length s)).
Qed.

(** * Further properties of the script *)

(** ** Cleaning and filtering as operations *)

Lemma filter_filter_and {A : Type} (p q : A -> bool) (l : list A) :
  List.filter q (List.filter p l) = List.filter (fun x => p x && q x) l.
Proof.
  induction l as [|x l IH]; simpl; [done |].
  destruct (p x) eqn:Ep; simpl; [| done].
  destruct (q x); by rewrite IH.
Qed.

Lemma filter_all {A : Type} (p : A -> bool) (l : list A) :
  (forall x, In x l -> p x = true) -> List.filter p l = l.
Proof.
  induction l as [|x l IH]; simpl; intros Hall; [done |].
  rewrite (Hall x) by by left. f_equal. apply IH. intros y Hy. apply Hall. by right.
Qed.

Lemma dropna_cleaned (df : list Row) : Forall all_fields_non_null (dropna df).
Proof.
  apply List.Forall_forall. intros r Hin. unfold dropna in Hin.
  apply filter_In in Hin as [_ Hr]. by apply row_complete_dec.
Qed.

(** X1.  Cleaning is idempotent: every row [dropna] returns has all its
    fields, a frame whose rows all have their fields is returned as it is,
    and so cleaning a cleaned frame removes nothing. *)
Theorem X1_dropna_idempotent (df : list Row) :
  Forall all_fields_non_null (dropna df) /\
  (Forall all_fields_non_null df -> dropna df = df) /\
  dropna (dropna df) = dropna df /\
  removed (dropna df) (dropna (dropna df)) = 0.
Proof.
  assert (Hfix : forall l, Forall all_fields_non_null l -> dropna l = l).
  { intros l Hl. unfold dropna. apply filter_all. intros r Hr.
    apply row_complete_dec. by apply (proj1 (List.Forall_forall _ _) Hl). }
  split_and!.
  - apply dropna_cleaned.
  - apply Hfix.
  - apply Hfix, dropna_cleaned.
  - rewrite (Hfix _ (dropna_cleaned df)). unfold removed, original_rows, cleaned_rows.
    lia.
Qed.

(** X4.  No null reaches the reducers: every row of the frame
    [load_and_clean_data] returns as cleaned, and every row of every view
    filtered from it, has all its fields. *)
Theorem X4_views_are_cleaned
    (to_datetime : list (option string) -> list (option Timestamp))
    (to_numeric : list (option string) -> list (option Z))
    (csv : list RawRow) (types : list string) (low high : Z) :
  Forall all_fields_non_null (snd (load_and_clean_data to_datetime to_numeric csv)) /\
  Forall all_fields_non_null
    (apply_filter (snd (load_and_clean_data to_datetime to_numeric csv)) types low high).
Proof.
  assert (Hclean : Forall all_fields_non_null
            (snd (load_and_clean_data to_datetime to_numeric csv)))
    by apply dropna_cleaned.
  split; [exact Hclean | by apply apply_filter_cleaned].
Qed.

(** ** The sidebar *)

Lemma unique_elem {A : Type} `{EqDecision A} (column : list A) (x : A) :
  x ∈ unique column <-> x ∈ column.
Proof. apply keys_tally_elem. Qed.

Lemma unique_NoDup {A : Type} `{EqDecision A} (column : list A) :
  NoDup (unique column).
Proof. apply keys_tally_NoDup. Qed.

Lemma insert_sorted_perm (s : string) (l : list string) :
  insert_sorted s l ≡ₚ s :: l.
Proof.
  induction l as [|h t IH]; simpl; [done |].
  destruct (String.leb s h); [done |]. rewrite IH. apply Permutation_swap.
Qed.

Lemma sort_strings_perm (l : list string) : sort_strings l ≡ₚ l.
Proof.
  induction l as [|s l IH]; simpl; [done |]. by rewrite insert_sorted_perm, IH.
Qed.

Lemma insert_sorted_sorted (s : string) (l : list string) :
  Sorted (fun a b => String.leb a b = true) l ->
  Sorted (fun a b => String.leb a b = true) (insert_sorted s l).
Proof.
  induction l as [|h t IH]; simpl; intros Hs; [by repeat constructor |].
  destruct (String.leb s h) eqn:E.
  - constructor; [done | by constructor].
  - apply Sorted_inv in Hs as [Ht Hh]. constructor; [by apply IH |].
    assert (Hhs : String.leb h s = true)
      by (destruct (String.leb_total s h) as [H|H]; congruence).
    destruct t as [|h' t']; simpl; [by constructor |].
    destruct (String.leb s h'); constructor; [done |].
    by apply HdRel_inv in Hh.
Qed.

Lemma sort_strings_sorted (l : list string) :
  Sorted (fun a b => String.leb a b = true) (sort_strings l).
Proof.
  induction l as [|s l IH]; simpl; [constructor |]. by apply insert_sorted_sorted.
Qed.

Lemma drop_null_all_some {A : Type} (cells : list (option A)) :
  Forall (fun c => c <> None) cells -> map Some (drop_null cells) = cells.
Proof.
  induction 1 as [|c cells Hc _ IH]; [done |].
  destruct c as [v|]; [| done]. unfold drop_null in *. simpl. by rewrite IH.
Qed.

Lemma sorted_all_some (cells : list (option string)) :
  Forall (fun c => c <> None) cells ->
  sorted cells = Done (map Some (sort_strings (drop_null cells))).
Proof.
  intros Hall. unfold sorted.
  assert (Hf : forallb (fun c => negb (isna c)) cells = true).
  { apply forallb_forall. intros c Hc.
    apply (proj1 (List.Forall_forall _ _) Hall) in Hc. by destruct c. }
  rewrite Hf.
  destruct cells as [|c1 [|c2 cells]]; [done | | done].
  apply Forall_cons in Hall as [Hc1 _]. by destruct c1.
Qed.

Lemma drop_null_elem {A : Type} (column : list (option A)) (v : A) :
  v ∈ drop_null column <-> Some v ∈ column.
Proof.
  unfold drop_null. rewrite !list_elem_of_In, in_flat_map. split.
  - intros (c & Hc & Hv). destruct c as [w|]; [| done].
    destruct Hv as [->|[]]. done.
  - intros Hv. exists (Some v). split; [done | by left].
Qed.

Lemma fold_min_le (v : Z) (ws : list Z) (x : Z) :
  x ∈ v :: ws -> fold_right Z.min v ws <= x.
Proof.
  induction ws as [|u ws IH]; simpl.
  - intros ->%list_elem_of_singleton. lia.
  - intros Hx. apply elem_of_cons in Hx as [->|Hx].
    + specialize (IH ltac:(by left)). lia.
    + apply elem_of_cons in Hx as [->|Hx]; [lia |].
      specialize (IH ltac:(by right)). lia.
Qed.

Lemma fold_max_ge (v : Z) (ws : list Z) (x : Z) :
  x ∈ v :: ws -> x <= fold_right Z.max v ws.
Proof.
  induction ws as [|u ws IH]; simpl.
  - intros ->%list_elem_of_singleton. lia.
  - intros Hx. apply elem_of_cons in Hx as [->|Hx].
    + specialize (IH ltac:(by left)). lia.
    + apply elem_of_cons in Hx as [->|Hx]; [lia |].
      specialize (IH ltac:(by right)). lia.
Qed.

Lemma fold_min_attained (v : Z) (ws : list Z) : fold_right Z.min v ws ∈ v :: ws.
Proof.
  induction ws as [|u ws IH]; simpl; [by left |].
  destruct (Z.min_spec u (fold_right Z.min v ws)) as [[_ ->]|[_ ->]].
  - right. by left.
  - apply elem_of_cons in IH as [->|IH]; [by left | by do 2 right].
Qed.

Lemma fold_max_attained (v : Z) (ws : list Z) : fold_right Z.max v ws ∈ v :: ws.
Proof.
  induction ws as [|u ws IH]; simpl; [by left |].
  destruct (Z.max_spec u (fold_right Z.max v ws)) as [[_ ->]|[_ ->]].
  - apply elem_of_cons in IH as [->|IH]; [by left | by do 2 right].
  - right. by left.
Qed.

Lemma series_min_spec (column : list (option Z)) (m : Z) :
  series_min column = Some m ->
  Some m ∈ column /\ forall v, Some v ∈ column -> m <= v.
Proof.
  unfold series_min. intros Hm.
  destruct (drop_null column) as [|w ws] eqn:E; [done |]. injection Hm as <-.
  split.
  - apply drop_null_elem. rewrite E. apply fold_min_attained.
  - intros v Hv. apply fold_min_le. rewrite <- E. by apply drop_null_elem.
Qed.

Lemma series_max_spec (column : list (option Z)) (m : Z) :
  series_max column = Some m ->
  Some m ∈ column /\ forall v, Some v ∈ column -> v <= m.
Proof.
  unfold series_max. intros Hm.
  destruct (drop_null column) as [|w ws] eqn:E; [done |]. injection Hm as <-.
  split.
  - apply drop_null_elem. rewrite E. apply fold_max_attained.
  - intros v Hv. apply fold_max_ge. rewrite <- E. by apply drop_null_elem.
Qed.

Lemma int_of_integer (z : Z) : int_of_float (Some (inject_Z z)) = Ok z.
Proof. unfold int_of_float, inject_Z. simpl. by rewrite Z.quot_1_r. Qed.

Lemma series_bounds_some (df : list Row) :
  df <> [] -> Forall (fun r => release_year r <> None) df ->
  exists low high, series_min (col release_year df) = Some low /\
                   series_max (col release_year df) = Some high.
Proof.
  intros Hne Hall. destruct (col_some release_year df Hall) as (years & Hcol & Hlen).
  unfold series_min, series_max. rewrite Hcol, drop_null_some.
  destruct years as [|y ys]; [by destruct df | by eexists _, _].
Qed.

Lemma sidebar_bounds (df : list Row) (types : list (option string)) (low high : Z) :
  sorted (unique (col type df)) = Done types ->
  series_min (col release_year df) = Some low ->
  series_max (col release_year df) = Some high ->
  sidebar df = Done {| content_types := types; slider_min := low; slider_max := high |}.
Proof.
  intros Ht Hlo Hhi. unfold sidebar. rewrite Ht, Hlo, Hhi.
  cbn [option_map]. by rewrite !int_of_integer.
Qed.

Lemma sidebar_inv (df : list Row) (sb : Sidebar) :
  sidebar df = Done sb ->
  sorted (unique (col type df)) = Done (content_types sb) /\
  series_min (col release_year df) = Some (slider_min sb) /\
  series_max (col release_year df) = Some (slider_max sb).
Proof.
  unfold sidebar.
  destruct (sorted (unique (col type df))) as [types| |e]; [| done..].
  destruct (series_min (col release_year df)) as [low|]; [| done].
  destruct (series_max (col release_year df)) as [high|]; [| done].
  cbn [option_map]. rewrite !int_of_integer. simpl. by intros [= <-].
Qed.

Lemma col_elem {A : Type} (field : Row -> A) (df : list Row) (c : A) :
  c ∈ col field df <-> exists r, r ∈ df /\ field r = c.
Proof.
  unfold col. change (map field df) with (field <$> df).
  rewrite list_elem_of_fmap. split; intros (r & H1 & H2); exists r; by split.
Qed.

Lemma default_filter_keeps_all (df : list Row) :
  df <> [] -> Forall all_fields_non_null df ->
  exists types low high,
    sidebar df = Done {| content_types := map Some types;
                         slider_min := low; slider_max := high |} /\
    low <= high /\
    apply_filter df types low high = df.
Proof.
  intros Hne Hclean.
  assert (Htypes : Forall (fun c : option string => c <> None) (unique (col type df))).
  { apply Forall_forall. intros c Hc. apply unique_elem, col_elem in Hc as (r & Hr & <-).
    apply (proj1 (Forall_forall _ _) Hclean) in Hr. unfold all_fields_non_null in Hr. tauto. }
  destruct (series_bounds_some df Hne (cleaned_release_year _ Hclean))
    as (low & high & Hlo & Hhi).
  exists (sort_strings (drop_null (unique (col type df)))), low, high.
  destruct (series_min_spec _ _ Hlo) as [Hlo_in Hlo_le].
  destruct (series_max_spec _ _ Hhi) as [_ Hhi_ge].
  split_and!.
  - apply sidebar_bounds; [by apply sorted_all_some | done | done].
  - by apply Hhi_ge.
  - rewrite apply_filter_rowwise. apply filter_all. intros r Hr%list_elem_of_In.
    apply row_passes_spec.
    pose proof (proj1 (Forall_forall _ _) Hclean r Hr) as Hall.
    unfold all_fields_non_null in Hall.
    destruct (type r) as [t|] eqn:Et; [| tauto].
    destruct (release_year r) as [y|] eqn:Ey; [| tauto].
    assert (Hy : Some y ∈ col release_year df) by (apply col_elem; eauto).
    split.
    + exists t. split; [done |]. apply list_elem_of_In.
      rewrite sort_strings_perm. apply drop_null_elem, unique_elem, col_elem. eauto.
    + exists y. split; [done |]. split; [by apply Hlo_le | by apply Hhi_ge].
Qed.

(** X5.  The default sidebar selects everything: on a non-empty cleaned
    frame the sidebar is built without an exception, and the filter with
    all its content types and the full slider range returns the cleaned
    frame itself. *)
Theorem X5_default_filter_keeps_all (df : list Row) :
  df <> [] -> Forall all_fields_non_null df ->
  exists types low high,
    sidebar df = Done {| content_types := map Some types;
                         slider_min := low; slider_max := high |} /\
    low <= high /\
    apply_filter df types low high = df.
Proof. apply default_filter_keeps_all. Qed.

(** X6.  The bounds of the year slider are tight: whenever the sidebar is
    built, its lower bound is the release year of some row, so is its upper
    bound, and every release year of the frame lies between them. *)
Theorem X6_slider_bounds (df : list Row) (sb : Sidebar) :
  sidebar df = Done sb ->
  (exists r, r ∈ df /\ release_year r = Some (slider_min sb)) /\
  (exists r, r ∈ df /\ release_year r = Some (slider_max sb)) /\
  (forall r y, r ∈ df -> release_year r = Some y ->
     slider_min sb <= y <= slider_max sb).
Proof.
  intros (_ & Hlo & Hhi)%sidebar_inv.
  destruct (series_min_spec _ _ Hlo) as [Hlo_in Hlo_le].
  destruct (series_max_spec _ _ Hhi) as [Hhi_in Hhi_ge].
  split_and!.
  - by apply col_elem in Hlo_in.
  - by apply col_elem in Hhi_in.
  - intros r y Hr Hy.
    assert (Some y ∈ col release_year df) by (apply col_elem; eauto).
    split; [by apply Hlo_le | by apply Hhi_ge].
Qed.

(** X7.  The options of the content-type selector are exactly the types
    that occur in the frame, each once, the texts in ascending order. *)
Theorem X7_content_type_options (df : list Row) (sb : Sidebar) :
  sidebar df = Done sb ->
  NoDup (content_types sb) /\
  (forall c, c ∈ content_types sb <-> exists r, r ∈ df /\ type r = c) /\
  Sorted (fun a b => String.leb a b = true) (drop_null (content_types sb)).
Proof.
  intros (Hs & _ & _)%sidebar_inv. unfold sorted in Hs.
  pose proof (unique_NoDup (col type df)) as Hnd.
  assert (Hel : forall c, c ∈ unique (col type df) <-> exists r, r ∈ df /\ type r = c).
  { intros c. by rewrite unique_elem, col_elem. }
  assert (Hshort : forall cells : list (option string),
            (length cells <= 1)%nat ->
            Sorted (fun a b => String.leb a b = true) (drop_null cells)).
  { intros [|[c|] [|? ?]]; simpl; intros ?; try lia; repeat constructor. }
  destruct (unique (col type df)) as [|c1 [|c2 cells]] eqn:E.
  - injection Hs as <-. split_and!; [done | done | apply Hshort; simpl; lia].
  - injection Hs as <-. split_and!; [done | done | apply Hshort; simpl; lia].
  - destruct (forallb _ _) eqn:Hf; [| done]. injection Hs as <-.
    assert (Hall : Forall (fun c : option string => c <> None) (c1 :: c2 :: cells)).
    { apply Forall_forall. intros c Hc%list_elem_of_In.
      apply (proj1 (forallb_forall _ _) Hf) in Hc. by destruct c. }
    pose proof (drop_null_all_some _ Hall) as Hback.
    assert (Hperm : map Some (sort_strings (drop_null (c1 :: c2 :: cells)))
                    ≡ₚ c1 :: c2 :: cells).
    { rewrite <- Hback at 2.
      change (map Some ?l) with (Some <$> l). by rewrite sort_strings_perm. }
    split_and!.
    + by rewrite Hperm.
    + intros c. by rewrite Hperm.
    + rewrite drop_null_some. apply sort_strings_sorted.
Qed.

(** X8.  When every row of the file misses a field, cleaning drops them
    all; the cleaning summary is still computed and shows 100 percent removed,
    and then the sidebar raises ValueError: the slider bounds are taken
    from an empty column. *)
Theorem X8_all_rows_dropped (df_original : list Row) :
  df_original <> [] ->
  Forall (fun r => ~ all_fields_non_null r) df_original ->
  dropna df_original = [] /\
  (exists q, pct_removed df_original (dropna df_original) = Ok q /\ (q == 100)%Q) /\
  sidebar (dropna df_original) = Failed ValueError.
Proof.
  intros Hne Hall.
  assert (Hempty : dropna df_original = []).
  { unfold dropna. clear Hne. induction Hall as [|r l Hr _ IH]; simpl; [done |].
    destruct (negb _) eqn:E; [| done]. by apply row_complete_dec in E. }
  rewrite Hempty. split_and!; [done | | reflexivity].
  unfold pct_removed, removed, original_rows, cleaned_rows.
  change (len (@nil Row)) with 0. rewrite Z.sub_0_r.
  assert (Hpos : 0 < len df_original).
  { unfold len. destruct df_original; [done | simpl; lia]. }
  rewrite truediv_ok by lia. eexists. split; [reflexivity |].
  field. intros H0. unfold Qeq in H0. simpl in H0. lia.
Qed.

(** ** Key metrics and charts *)

Lemma occurrences_col {A : Type} `{EqDecision A} (field : Row -> option A) (x : A)
    (view : list Row) :
  occurrences x (drop_null (col field view)) = count_cell field x view.
Proof.
  unfold count_cell, col. induction view as [|r view IH]; [done |].
  cbn [map List.filter]. unfold drop_null in *. cbn [flat_map].
  rewrite occurrences_app, IH. destruct (field r) as [v|]; simpl.
  - rewrite occurrences_cons. change (occurrences x []) with 0%nat.
    destruct (decide (v = x)) as [->|Hne].
    + rewrite bool_decide_eq_true_2 by done. simpl. lia.
    + rewrite bool_decide_eq_false_2 by congruence. simpl. lia.
  - first [done | by rewrite bool_decide_eq_false_2].
Qed.

Lemma count_of_absent {A : Type} `{EqDecision A} (x : A) (t : list (A * nat)) :
  x ∉ t.*1 -> count_of x t = 0%nat.
Proof.
  induction t as [|[y n] t IH]; csimpl; [done |].
  intros [Hne Hnin]%not_elem_of_cons. destruct (decide (x = y)); [done | by apply IH].
Qed.

Lemma count_of_value_counts {A : Type} `{EqDecision A} (column : list (option A)) (x : A) :
  count_of x (value_counts column) = occurrences x (drop_null column).
Proof.
  destruct (decide (x ∈ (value_counts column).*1)) as [Hin|Hnin].
  - assert (He : (x, count_of x (value_counts column)) ∈ value_counts column).
    { apply elem_of_table; [apply value_counts_NoDup | done]. }
    by apply value_counts_elem in He as [_ ->].
  - rewrite count_of_absent by done. symmetry.
    rewrite value_counts_keys in Hnin.
    destruct (occurrences x (drop_null column)) eqn:E; [done |].
    exfalso. apply Hnin. clear -E. induction (drop_null column) as [|y l IH]; [done |].
    rewrite occurrences_cons in E. destruct (decide (y = x)) as [->|]; [by left |].
    right. apply IH. simpl in E. exact E.
Qed.

Lemma count_type_cell (kind : string) (view : list Row) :
  count_type kind view = count_cell type kind view.
Proof. reflexivity. Qed.

Lemma count_type_disjoint (view : list Row) :
  (count_type "Movie" view + count_type "TV Show" view <= length view)%nat /\
  ((count_type "Movie" view + count_type "TV Show" view = length view)%nat <->
   Forall (fun r => type r = Some "Movie" \/ type r = Some "TV Show") view).
Proof.
  unfold count_type. induction view as [|r view [IHle IHeq]]; simpl.
  - split; [lia |]. split; [constructor | done].
  - pose proof (filter_length_le (fun r => bool_decide (type r = Some "Movie")) view).
    pose proof (filter_length_le (fun r => bool_decide (type r = Some "TV Show")) view).
    rewrite Forall_cons.
    destruct (decide (type r = Some "Movie")) as [Hm|Hm];
      destruct (decide (type r = Some "TV Show")) as [Hs|Hs];
      try (rewrite Hm in Hs; discriminate Hs).
    + rewrite (bool_decide_eq_true_2 _ Hm), (bool_decide_eq_false_2 _ Hs). simpl.
      split; [lia |]. rewrite <- IHeq. split; [intros; split; [by left | lia] | lia].
    + rewrite (bool_decide_eq_false_2 _ Hm), (bool_decide_eq_true_2 _ Hs). simpl.
      split; [lia |]. rewrite <- IHeq. split; [intros; split; [by right | lia] | lia].
    + rewrite (bool_decide_eq_false_2 _ Hm), (bool_decide_eq_false_2 _ Hs). simpl.
      split; [lia |]. split; [lia | intros [[?|?] _]; done].
Qed.

(** X9.  The Movies and TV Shows metrics count disjoint rows: together
    they never exceed Total Titles, and they add up to it exactly when
    every row of the view is a Movie or a TV Show. *)
Theorem X9_key_metrics_partition (view : list Row) :
  0 <= movies (key_metrics view) /\ 0 <= shows (key_metrics view) /\
  movies (key_metrics view) + shows (key_metrics view)
    <= total_titles (key_metrics view) /\
  (movies (key_metrics view) + shows (key_metrics view)
     = total_titles (key_metrics view) <->
   Forall (fun r => type r = Some "Movie" \/ type r = Some "TV Show") view).
Proof.
  unfold key_metrics. cbn [movies shows total_titles].
  rewrite !len_type_selection. unfold len.
  destruct (count_type_disjoint view) as [Hle Heq].
  split_and!; [lia | lia | lia |]. rewrite <- Heq. lia.
Qed.

(** X10.  The type distribution chart agrees with the key metrics: its
    count for a type is the number of rows of that type, so its Movie and
    TV Show entries are the Movies and TV Shows metrics, and on a view
    without null types its counts add up to Total Titles. *)
Theorem X10_type_distribution (view : list Row) :
  (forall kind, count_of kind (type_dist view) = count_type kind view) /\
  Z.of_nat (count_of "Movie" (type_dist view)) = movies (key_metrics view) /\
  Z.of_nat (count_of "TV Show" (type_dist view)) = shows (key_metrics view) /\
  (Forall (fun r => type r <> None) view ->
   Z.of_nat (sum_counts (type_dist view)) = total_titles (key_metrics view)).
Proof.
  assert (Hc : forall kind, count_of kind (type_dist view) = count_type kind view).
  { intros kind. unfold type_dist.
    by rewrite count_of_value_counts, occurrences_col. }
  unfold key_metrics. cbn [movies shows total_titles].
  rewrite !len_type_selection, !Hc. split_and!; [done | done | done |].
  intros Hall. unfold type_dist. rewrite value_counts_sum.
  destruct (col_some type view Hall) as (vs & Hcol & Hlen).
  by rewrite Hcol, drop_null_some, Hlen.
Qed.

Lemma insert_key_perm (e : Z * nat) (s : list (Z * nat)) : insert_key e s ≡ₚ e :: s.
Proof.
  induction s as [|h s IH]; simpl; [done |].
  destruct (fst e <=? fst h); [done |]. rewrite IH. apply Permutation_swap.
Qed.

Lemma sort_index_perm (t : list (Z * nat)) : sort_index t ≡ₚ t.
Proof.
  induction t as [|e t IH]; simpl; [done |]. by rewrite insert_key_perm, IH.
Qed.

Lemma insert_key_sorted (e : Z * nat) (s : list (Z * nat)) :
  StronglySorted (fun e1 e2 => fst e1 < fst e2) s -> fst e ∉ s.*1 ->
  StronglySorted (fun e1 e2 => fst e1 < fst e2) (insert_key e s).
Proof.
  induction 1 as [|h s Hs IH Hh]; csimpl; intros Hnin; [repeat constructor |].
  apply not_elem_of_cons in Hnin as [Hne Hnin].
  destruct (Z.leb_spec (fst e) (fst h)) as [Hle|Hgt].
  - constructor; [by constructor |]. constructor; [lia |].
    rewrite Forall_forall in Hh |- *. intros e' He'. specialize (Hh _ He'). lia.
  - constructor; [by apply IH |]. rewrite insert_key_perm. by constructor; [lia |].
Qed.

Lemma sort_index_sorted (t : list (Z * nat)) :
  NoDup t.*1 -> StronglySorted (fun e1 e2 => fst e1 < fst e2) (sort_index t).
Proof.
  induction t as [|e t IH]; csimpl; [constructor |].
  intros [Hnin Hnd]%NoDup_cons. apply insert_key_sorted; [by apply IH |].
  by rewrite sort_index_perm.
Qed.

(** A table of counts per year, in ascending order of the year. *)
Lemma year_table_spec (years : list (option Z)) (t : list (Z * nat)) :
  t ≡ₚ tally (drop_null years) ->
  StronglySorted (fun e1 e2 => fst e1 < fst e2) (sort_index t) /\
  (forall y n, (y, n) ∈ sort_index t <->
     (0 < n)%nat /\ n = occurrences y (drop_null years)) /\
  sum_counts (sort_index t) = length (drop_null years).
Proof.
  intros Hperm. split_and!.
  - apply sort_index_sorted. rewrite Hperm. apply keys_tally_NoDup.
  - intros y n. rewrite sort_index_perm, Hperm, elem_of_tally. split.
    + intros [Hin ->]. split; [by apply occurrences_pos | done].
    + intros [Hpos ->]. split; [| done].
      destruct (decide (y ∈ drop_null years)) as [|Hnin]; [done |].
      exfalso. clear -Hpos Hnin. induction (drop_null years) as [|x l IH];
        [exact (Nat.lt_irrefl 0 Hpos) |].
      apply not_elem_of_cons in Hnin as [Hne Hnin]. rewrite occurrences_cons in Hpos.
      destruct (decide (x = y)); [by subst |]. by apply IH.
  - unfold sum_counts. change (map snd ?l) with (snd <$> l).
    rewrite sort_index_perm, Hperm. apply sum_counts_tally.
Qed.

(** X11.  The "added over time" chart lists the calendar years in which
    rows of the view were added, in strictly ascending order, each with the
    number of rows added that year, and on a view without null dates its
    counts add up to the number of rows. *)
Theorem X11_added_trend (view : list Row) :
  StronglySorted (fun e1 e2 => fst e1 < fst e2) (added_trend view) /\
  (forall y n, (y, n) ∈ added_trend view <->
     (0 < n)%nat /\ n = count_year_added y view) /\
  (Forall (fun r => date_added r <> None) view ->
   sum_counts (added_trend view) = length view).
Proof.
  unfold added_trend.
  assert (Hcol : map (option_map ts_year) (col date_added view)
                 = col (fun r => option_map ts_year (date_added r)) view)
    by (unfold col; rewrite map_map; reflexivity).
  rewrite Hcol.
  destruct (year_table_spec
              (col (fun r => option_map ts_year (date_added r)) view) _
              (reflexivity _)) as (Hs & Hel & Hsum).
  split_and!; [exact Hs | |].
  - intros y n. rewrite Hel, occurrences_col. done.
  - intros Hall. rewrite Hsum.
    assert (Hall' : Forall (fun r => option_map ts_year (date_added r) <> None) view).
    { eapply Forall_impl; [exact Hall |]. intros r Hr. cbv beta in *.
      destruct (date_added r); [discriminate | done]. }
    destruct (col_some _ view Hall') as (vs & Hvs & Hlen).
    by rewrite Hvs, drop_null_some.
Qed.

(** X12.  The release-year chart lists the release years of the view in
    strictly ascending order, each with the number of rows released that
    year, and on a view without null years its counts add up to the number
    of rows. *)
Theorem X12_release_distribution (view : list Row) :
  StronglySorted (fun e1 e2 => fst e1 < fst e2) (release_dist view) /\
  (forall y n, (y, n) ∈ release_dist view <->
     (0 < n)%nat /\ n = count_release_year y view) /\
  (Forall (fun r => release_year r <> None) view ->
   sum_counts (release_dist view) = length view).
Proof.
  unfold release_dist.
  destruct (year_table_spec (col release_year view) _
              (value_counts_perm (col release_year view))) as (Hs & Hel & Hsum).
  split_and!; [exact Hs | |].
  - intros y n. rewrite Hel, occurrences_col. done.
  - intros Hall. rewrite Hsum.
    destruct (col_some _ view Hall) as (vs & Hvs & Hlen).
    by rewrite Hvs, drop_null_some.
Qed.

(** X13.  The ratings chart is a top-10 frequency table of the ratings of
    the view: its entries carry the true counts, in descending order, and
    the ten kept dominate the ones left out, whatever the sort does with
    equal counts.  When the sort is stable, sorting the table of
    [value_counts] once more leaves it as it is. *)
Theorem X13_rating_distribution (view : list Row) :
  is_top_k_by_count 10 (drop_null (col rating view)) (rating_dist view) /\
  (is_stable sort_values ->
   rating_dist view = head 10 (value_counts (col rating view))).
Proof.
  unfold rating_dist. split.
  - apply table_top_k_by_count; [| apply sort_values_descending].
    rewrite sort_values_perm. apply value_counts_perm.
  - intros Hstable. rewrite (Hstable _ (value_counts (col rating view))).
    by rewrite (sort_values_desc_fixed _ _ (value_counts_sorted (col rating view) Hstable)).
Qed.

Lemma tally_length {A : Type} `{EqDecision A} (column : list (option A)) :
  length (tally (drop_null column)) = length (remove_dups (drop_null column)).
Proof.
  rewrite <- value_counts_length. symmetry. apply Permutation_length, value_counts_perm.
Qed.

(** X14.  The Countries and Genres metrics are the numbers of distinct
    values the rows of the view list, and each top-15 chart has as many
    bars as its metric says, up to fifteen. *)
Theorem X14_distinct_values (view : list Row) :
  countries (key_metrics view)
  = Z.of_nat (length (remove_dups (listed_values country view))) /\
  genres (key_metrics view)
  = Z.of_nat (length (remove_dups (listed_values listed_in view))) /\
  length (top_countries view)
  = Nat.min 15 (Z.to_nat (countries (key_metrics view))) /\
  length (top_genres view)
  = Nat.min 15 (Z.to_nat (genres (key_metrics view))).
Proof.
  unfold key_metrics, top_countries, top_genres, nunique, len, head.
  cbn [countries genres]. rewrite !length_take, !value_counts_length, !tally_length.
  unfold countries_list, genres_list. rewrite !explode_values, !Nat2Z.id. done.
Qed.

(** X15.  On a non-empty view whose genre cells are all present, the "most
    popular genre" is the first entry of the top-genres chart, and no genre
    of the view is listed more often.  Which of several genres listed
    equally often it is depends on the sort: the one met first when the sort
    is stable. *)
Theorem X15_most_popular_genre (view : list Row) :
  view <> [] -> Forall (fun r => listed_in r <> None) view ->
  exists g n rest,
    top_genre_insight view = Ok (MostPopularGenre g) /\
    top_genres view = (g, n) :: rest /\
    n = occurrences g (listed_values listed_in view) /\
    (forall y, y ∈ listed_values listed_in view ->
       (occurrences y (listed_values listed_in view) <= n)%nat) /\
    (is_stable sort_values ->
     forall y, y ∈ listed_values listed_in view ->
       occurrences y (listed_values listed_in view) = n ->
       (first_pos g (listed_values listed_in view)
          <= first_pos y (listed_values listed_in view))%nat).
Proof.
  intros Hne Hall.
  pose proof (value_counts_descending (genres_list view)) as Hs.
  pose proof (fun Hst => value_counts_sorted (genres_list view) Hst) as Hst.
  assert (Hel : forall y m, (y, m) ∈ value_counts (genres_list view) <->
            y ∈ listed_values listed_in view /\
            m = occurrences y (listed_values listed_in view)).
  { intros y m. rewrite value_counts_elem. unfold genres_list.
    by rewrite explode_values. }
  unfold genres_list in Hst. rewrite explode_values in Hst.
  fold (genres_list view) in Hst.
  unfold top_genre_insight, top_genres, head.
  replace (0 <? len view) with true by by destruct view.
  assert (Hnonempty : value_counts (genres_list view) <> []).
  { destruct (top_genre_total view Hall) as (i & Hi).
    unfold top_genre_insight in Hi.
    replace (0 <? len view) with true in Hi by by destruct view.
    intros E. rewrite E in Hi. discriminate Hi. }
  destruct (value_counts (genres_list view)) as [|[g n] t] eqn:E; [done |].
  exists g, n, (take 14 t). apply StronglySorted_cons in Hs as [Hg _].
  split_and!; [done | done | | |].
  - by apply (Hel g n); left.
  - intros y Hy.
    assert (Hyin : (y, occurrences y (listed_values listed_in view)) ∈ (g, n) :: t)
      by by apply Hel.
    apply elem_of_cons in Hyin as [[= -> ->]|Hyin]; [lia |].
    apply (proj1 (Forall_forall _ _) Hg) in Hyin. simpl in Hyin. lia.
  - intros Hstable y Hy Heq. specialize (Hst Hstable).
    apply StronglySorted_cons in Hst as [Hg' _].
    assert (Hyin : (y, occurrences y (listed_values listed_in view)) ∈ (g, n) :: t)
      by by apply Hel.
    apply elem_of_cons in Hyin as [[= -> _]|Hyin]; [lia |].
    apply (proj1 (Forall_forall _ _) Hg') in Hyin.
    unfold ranks_before in Hyin. simpl in Hyin. lia.
Qed.


(** ** Duration panels *)

Lemma extracted_length (l : list Row) :
  (length (flat_map (fun r => match extract_number (duration r) with
                              | Some n => [n]
                              | None => []
                              end) l) <= length l)%nat /\
  (length (flat_map (fun r => match extract_number (duration r) with
                              | Some n => [n]
                              | None => []
                              end) l) = length l <->
   Forall (fun r => extract_number (duration r) <> None) l).
Proof.
  induction l as [|r l [IHle IHeq]]; simpl.
  - split; [lia |]. split; [constructor | done].
  - rewrite length_app, Forall_cons. destruct (extract_number (duration r)); simpl.
    + split; [lia |]. rewrite <- IHeq. split; [intros; split; [done | lia] | lia].
    + split; [lia |]. split; [lia | intros [? _]; done].
Qed.

Lemma Forall_filter_iff {A : Type} (p : A -> bool) (P : A -> Prop) (l : list A) :
  Forall P (List.filter p l) <-> Forall (fun x => p x = true -> P x) l.
Proof.
  induction l as [|x l IH]; simpl; [split; constructor |].
  rewrite Forall_cons. destruct (p x) eqn:E.
  - rewrite Forall_cons, IH. split; intros [? ?]; split; auto.
  - rewrite IH. split; [intros; split; [done | done] | tauto].
Qed.

Lemma mean_of_extracted (l : list Row) :
  mean (map (fun r => extract_number (duration r)) l)
  = match flat_map (fun r => match extract_number (duration r) with
                             | Some n => [n]
                             | None => []
                             end) l with
    | [] => None
    | v :: vs => Some (arithmetic_mean (v :: vs))
    end.
Proof.
  unfold mean.
  replace (drop_null (map (fun r => extract_number (duration r)) l))
    with (drop_null (str_extract_float (col duration l)))
    by (unfold str_extract_float, col; by rewrite map_map).
  by rewrite drop_null_extract.
Qed.

Lemma duration_panel_spec (kind message : string) (view : list Row) :
  (duration_panel kind message view = PanelInfo message <-> count_type kind view = 0%nat) /\
  (forall x avg, duration_panel kind message view = Histogram x avg ->
     (0 < count_type kind view)%nat /\
     (length x <= count_type kind view)%nat /\
     avg = match x with
           | [] => None
           | v :: vs => Some (arithmetic_mean (v :: vs))
           end /\
     (length x = count_type kind view <->
      Forall (fun r => type r = Some kind -> extract_number (duration r) <> None) view)).
Proof.
  unfold duration_panel, count_type.
  pose proof (Forall_filter_iff (fun r => bool_decide (type r = Some kind))
                (fun r => extract_number (duration r) <> None) view) as Hff.
  destruct (List.filter (fun r => bool_decide (type r = Some kind)) view)
    as [|r rs] eqn:E.
  - split; [done | done].
  - split; [split; [done | simpl; lia] |].
    intros x avg [= <- <-].
    destruct (extracted_length (r :: rs)) as [Hle Heq].
    split_and!; [simpl; lia | exact Hle | exact (mean_of_extracted (r :: rs)) |].
    rewrite Heq, Hff. apply Forall_iff. intros r'.
    by rewrite bool_decide_eq_true.
Qed.

(** X16.  Each duration panel goes with its metric: it shows its message
    exactly when the Movies (or TV Shows) metric is zero; otherwise its
    histogram holds at most one value per such row, one per row exactly
    when every such row's duration holds a number, and the average it
    reports is the mean of the values in the histogram. *)
Theorem X16_duration_panels (h : store) (lf : loc) (V : DataFrame) :
  h !! lf = Some V ->
  exists pm ps h1 h2,
    movie_durations lf h = Ok (pm, h1) /\
    show_seasons lf h = Ok (ps, h2) /\
    (pm = PanelInfo "No movies in selected filters"
       <-> movies (key_metrics (rows V)) = 0) /\
    (ps = PanelInfo "No TV shows in selected filters"
       <-> shows (key_metrics (rows V)) = 0) /\
    (forall x avg, pm = Histogram x avg ->
       Z.of_nat (length x) <= movies (key_metrics (rows V)) /\
       avg = match x with
             | [] => None
             | v :: vs => Some (arithmetic_mean (v :: vs))
             end /\
       (Z.of_nat (length x) = movies (key_metrics (rows V)) <->
        Forall (fun r => type r = Some "Movie" -> extract_number (duration r) <> None)
               (rows V))) /\
    (forall x avg, ps = Histogram x avg ->
       Z.of_nat (length x) <= shows (key_metrics (rows V)) /\
       avg = match x with
             | [] => None
             | v :: vs => Some (arithmetic_mean (v :: vs))
             end /\
       (Z.of_nat (length x) = shows (key_metrics (rows V)) <->
        Forall (fun r => type r = Some "TV Show" -> extract_number (duration r) <> None)
               (rows V))).
Proof.
  intros Hlf.
  destruct (movie_durations_run lf V h Hlf) as (h1 & E1 & _).
  destruct (show_seasons_run lf V h Hlf) as (h2 & E2 & _).
  eexists _, _, h1, h2. split; [exact E1 |]. split; [exact E2 |].
  unfold key_metrics. cbn [movies shows]. rewrite !len_type_selection.
  destruct (duration_panel_spec "Movie" "No movies in selected filters" (rows V))
    as [Hm1 Hm2].
  destruct (duration_panel_spec "TV Show" "No TV shows in selected filters" (rows V))
    as [Hs1 Hs2].
  split_and!.
  - rewrite Hm1. lia.
  - rewrite Hs1. lia.
  - intros x avg Hp. destruct (Hm2 x avg Hp) as (_ & Hle & Havg & Heq).
    split_and!; [lia | exact Havg |]. rewrite <- Heq. lia.
  - intros x avg Hp. destruct (Hs2 x avg Hp) as (_ & Hle & Havg & Heq).
    split_and!; [lia | exact Havg |]. rewrite <- Heq. lia.
Qed.

(** ** Running the script again *)

(** X17.  A rerun shows the same dashboard: on a cleaned store, running the
    filter and the aggregation again, in the store the first run left
    behind, gives the dashboard of the first run; the second view is a new
    object, and the cleaned frame and the first view are still what they
    were. *)
Theorem X17_rerun_same_dashboard (h : store) (df : loc) (F : DataFrame)
    (selected_content_types : list string) (min_year max_year : Z) :
  h !! df = Some F ->
  Forall all_fields_non_null (rows F) ->
  exists lf d h' lf' h'',
    session df selected_content_types min_year max_year h = Ok ((lf, d), h') /\
    session df selected_content_types min_year max_year h' = Ok ((lf', d), h'') /\
    lf' <> lf /\
    h'' !! df = Some F /\
    h'' !! lf = Some (filtered_frame F selected_content_types min_year max_year).
Proof.
  intros Hdf Hclean.
  pose proof (apply_filter_cleaned _ selected_content_types min_year max_year Hclean)
    as Hview.
  destruct (content_mix_total
              (apply_filter (rows F) selected_content_types min_year max_year))
    as (i1 & H1).
  destruct (top_genre_total _ (cleaned_listed_in _ Hview)) as (i2 & H2).
  destruct (avg_year_total _ (cleaned_release_year _ Hview)) as (i3 & H3).
  destruct (session_run df F h selected_content_types min_year max_year
              i1 i2 i3 Hdf H1 H2 H3) as (h' & _ & _ & Hs & Hsub1 & Hsub2).
  assert (Hdf' : h' !! df = Some F).
  { eapply lookup_weaken; [| exact Hsub2]. by eapply lookup_weaken. }
  assert (Hlf' : h' !! fresh (dom h)
                 = Some (filtered_frame F selected_content_types min_year max_year)).
  { eapply lookup_weaken; [apply lookup_insert_eq | exact Hsub2]. }
  destruct (session_run df F h' selected_content_types min_year max_year
              i1 i2 i3 Hdf' H1 H2 H3) as (h'' & _ & _ & Hs' & Hsub1' & Hsub2').
  eexists _, _, h', _, h''. split; [exact Hs |]. split; [exact Hs' |].
  split_and!.
  - intros Heq. pose proof (fresh_None h') as Hnone. rewrite Heq in Hnone.
    rewrite Hlf' in Hnone. discriminate Hnone.
  - eapply lookup_weaken; [| exact Hsub2']. by eapply lookup_weaken.
  - eapply lookup_weaken; [| exact Hsub2']. by eapply lookup_weaken.
Qed.

(** ** The splitting of multi-valued cells, completed *)

Lemma split_comma_head (c : ascii) (s : string) :
  exists h t, split_comma (String c s) = h :: t /\
              (h = EmptyString \/ exists h', h = String c h').
Proof.
  cbn [split_comma].
  assert (Hkeep : exists h t,
            match split_comma s with
            | h :: t => String c h :: t
            | [] => [String c EmptyString]
            end = h :: t /\ (h = EmptyString \/ exists h', h = String c h')).
  { destruct (split_comma s) as [|h t]; eexists _, _; split; try reflexivity;
      right; by eexists. }
  destruct (Ascii.eqb c ","); [| exact Hkeep].
  destruct s as [|c' s'']; [exact Hkeep |].
  destruct (Ascii.eqb c' " "); [| exact Hkeep].
  eexists _, _. split; [reflexivity | by left].
Qed.

Lemma contains_sep_cons (c : ascii) (h : string) :
  contains_sep h = false ->
  (Ascii.eqb c "," = false \/ h = EmptyString \/
   exists c' h', h = String c' h' /\ Ascii.eqb c' " " = false) ->
  contains_sep (String c h) = false.
Proof.
  intros Hh Hc. destruct h as [|c' h']; [done |].
  cbn [contains_sep] in *. fold (contains_sep (String c' h')).
  change (match h' with
          | EmptyString => false
          | String c'0 _ => Ascii.eqb c' "," && Ascii.eqb c'0 " " || contains_sep h'
          end) with (contains_sep (String c' h')) in *.
  rewrite Hh, orb_false_r.
  destruct Hc as [->|[?|(? & ? & [= <- <-] & ->)]]; [done | done | apply andb_false_r].
Qed.

Lemma split_comma_no_sep (s : string) :
  Forall (fun p => contains_sep p = false) (split_comma s).
Proof.
  assert (Hall : forall n s, (String.length s <= n)%nat ->
                             Forall (fun p => contains_sep p = false) (split_comma s)).
  { clear s. induction n as [|n IH]; intros s Hlen.
    - destruct s; [by repeat constructor | simpl in Hlen; lia].
    - destruct s as [|c s']; [by repeat constructor |]. simpl in Hlen.
      assert (Hkeep : (Ascii.eqb c "," = false \/ s' = EmptyString \/
                       exists c' s'', s' = String c' s'' /\ Ascii.eqb c' " " = false) ->
                Forall (fun p => contains_sep p = false)
                  (match split_comma s' with
                   | h :: t => String c h :: t
                   | [] => [String c EmptyString]
                   end)).
      { intros Hc. pose proof (IH s' ltac:(lia)) as Hs'.
        destruct (split_comma s') as [|h t] eqn:E; [by repeat constructor |].
        apply Forall_cons in Hs' as [Hh Ht]. constructor; [| done].
        apply contains_sep_cons; [done |].
        destruct Hc as [?|[->|(c' & s'' & -> & Hc')]]; [by left | |].
        - right. left. simpl in E. by injection E as <- _.
        - destruct (split_comma_head c' s'') as (h0 & t0 & E0 & [->|(h' & ->)]);
            rewrite E0 in E; injection E as <- _.
          + right. by left.
          + right. right. by eexists _, _. }
      cbn [split_comma].
      destruct (Ascii.eqb c ",") eqn:Ec; [| apply Hkeep; by left].
      destruct s' as [|c' s'']; [apply Hkeep; right; by left |].
      destruct (Ascii.eqb c' " ") eqn:Ec';
        [| apply Hkeep; right; right; by eexists _, _].
      simpl in Hlen. constructor; [done |]. apply IH. lia. }
  by apply (Hall (String.length s)).
Qed.

Lemma split_comma_without_sep (s : string) :
  contains_sep s = false -> split_comma s = [s].
Proof.
  induction s as [|c s IH]; [done |].
  intros Hs. cbn [contains_sep] in Hs. cbn [split_comma].
  destruct s as [|c' s'].
  - simpl. by destruct (Ascii.eqb c ",").
  - apply orb_false_iff in Hs as [Hcc Hs']. rewrite (IH Hs').
    destruct (Ascii.eqb c ","); [| done].
    simpl in Hcc. by rewrite Hcc.
Qed.

(** X18.  Splitting a cell at comma-space loses nothing and leaves no
    delimiter behind: the result is never empty, joining the pieces with
    comma-space gives the cell back, no piece holds the delimiter, and a
    cell without the delimiter is a single value. *)
Theorem X18_split_comma_exact (s : string) :
  split_comma s <> [] /\
  join_comma (split_comma s) = s /\
  Forall (fun p => contains_sep p = false) (split_comma s) /\
  (contains_sep s = false -> split_comma s = [s]).
Proof.
  split_and!.
  - apply split_comma_nonempty.
  - apply join_split_comma.
  - apply split_comma_no_sep.
  - apply split_comma_without_sep.
Qed.

(** X19.  On first render the dashboard describes the whole catalog: with
    the content types and the year range the sidebar offers by default, the
    run on a non-empty cleaned store succeeds, its view holds every row of
    the cleaned frame, and Total Titles equals the number of cleaned rows. *)
Theorem X19_first_render (h : store) (df : loc) (F : DataFrame) :
  h !! df = Some F -> rows F <> [] -> Forall all_fields_non_null (rows F) ->
  exists types low high lf d h',
    sidebar (rows F) = Done {| content_types := map Some types;
                               slider_min := low; slider_max := high |} /\
    session df types low high h = Ok ((lf, d), h') /\
    rows <$> h' !! lf = Some (rows F) /\
    total_titles (metrics d) = cleaned_rows (rows F).
Proof.
  intros Hdf Hne Hclean.
  destruct (default_filter_keeps_all (rows F) Hne Hclean)
    as (types & low & high & Hsb & _ & Hid).
  assert (Hview : Forall all_fields_non_null (apply_filter (rows F) types low high))
    by by rewrite Hid.
  destruct (content_mix_total (apply_filter (rows F) types low high)) as (i1 & H1).
  destruct (top_genre_total _ (cleaned_listed_in _ Hview)) as (i2 & H2).
  destruct (avg_year_total _ (cleaned_release_year _ Hview)) as (i3 & H3).
  destruct (session_run df F h types low high i1 i2 i3 Hdf H1 H2 H3)
    as (h' & _ & _ & Hs & _ & Hsub2).
  eexists types, low, high, _, _, h'. split; [exact Hsb |]. split; [exact Hs |].
  split.
  - erewrite (lookup_weaken _ h'); [| apply lookup_insert_eq | exact Hsub2].
    simpl. by rewrite Hid.
  - unfold dashboard_of, key_metrics. cbn [metrics total_titles]. by rewrite Hid.
Qed.

End Contract.

(** * Sorts that meet the contract *)

(** The stable sort meets the contract, and so does a sort that leaves
    equal counts in the opposite order: the contract does not fix the
    order of ties. *)

Lemma stable_sort_perm (A : Type) (t : list (A * nat)) : stable_sort A t ≡ₚ t.
Proof. apply sort_values_desc_perm. Qed.

Lemma stable_sort_descending (A : Type) (t : list (A * nat)) :
  StronglySorted (fun e1 e2 => (snd e2 <= snd e1)%nat) (stable_sort A t).
Proof. apply sort_values_desc_descending. Qed.

Lemma stable_sort_is_stable : is_stable stable_sort.
Proof. intros A t. reflexivity. Qed.



(** * The sample data *)

Example split_comma_countries :
  split_comma "United States, India, South Korea"
  = ["United States"; "India"; "South Korea"].
Proof. reflexivity. Qed.

Example split_comma_single : split_comma "India" = ["India"].
Proof. reflexivity. Qed.

Example split_comma_needs_space : split_comma "a,b, c" = ["a,b"; "c"].
Proof. reflexivity. Qed.

(** ** The end-to-end scenario *)

Example scenario_view :
  len (apply_filter sample_catalog ["Movie"] 2019 2021) = 3.
Proof. reflexivity. Qed.

Example scenario_top_countries :
  top_countries stable_sort (apply_filter sample_catalog ["Movie"] 2019 2021)
  = [("US", 2%nat); ("UK", 1%nat); ("IN", 1%nat)].
Proof. reflexivity. Qed.

Example scenario_top_countries_reversed_ties :
  top_countries reversed_ties_sort (apply_filter sample_catalog ["Movie"] 2019 2021)
  = [("US", 2%nat); ("IN", 1%nat); ("UK", 1%nat)].
Proof. reflexivity. Qed.

Example scenario_content_mix :
  content_mix_insight (apply_filter sample_catalog ["Movie"] 2019 2021)
  = Ok OnlyMoviesSelected.
Proof. reflexivity. Qed.

(** ** The theorems at work on the sample data *)

Lemma sample_to_datetime_length (c : list (option string)) :
  length (sample_to_datetime c) = length c.
Proof. apply length_map. Qed.

Lemma sample_to_numeric_length (c : list (option string)) :
  length (sample_to_numeric c) = length c.
Proof. apply length_map. Qed.

Lemma sample_catalog_cleaned : Forall all_fields_non_null sample_catalog.
Proof. repeat constructor; discriminate. Qed.

Example sample_cleaning :
  len (fst sample_frames) = 4 /\ len (snd sample_frames) = 1.
Proof. split; reflexivity. Qed.

(** C1 on the sample file: of four raw rows the complete one is kept, and
    the stored date column is the coerced one. *)
Lemma C1_witness :
  (forall c, length (sample_to_datetime c) = length c) /\
  (forall c, length (sample_to_numeric c) = length c) /\
  load_and_clean_data sample_to_datetime sample_to_numeric sample_csv
  = (fst sample_frames, snd sample_frames) /\
  col date_added (fst sample_frames)
  = sample_to_datetime (map raw_date_added sample_csv) /\
  col release_year (fst sample_frames)
  = sample_to_numeric (map raw_release_year sample_csv) /\
  kept_in_order all_fields_non_null (fst sample_frames) (snd sample_frames) /\
  cleaned_rows (snd sample_frames) + removed (fst sample_frames) (snd sample_frames)
  = original_rows (fst sample_frames).
Proof.
  split; [exact sample_to_datetime_length |].
  split; [exact sample_to_numeric_length |].
  split; [reflexivity |].
  destruct (C1_cleaning_totality sample_to_datetime sample_to_numeric
              sample_to_datetime_length sample_to_numeric_length
              sample_csv (fst sample_frames) (snd sample_frames) eq_refl)
    as (_ & Hdates & Hyears & _ & Hkept & _ & _ & Hcount & _).
  split; [exact Hdates |]. split; [exact Hyears |].
  split; [exact Hkept | exact Hcount].
Defined.

(** C10 on the sample file: three of four rows removed, 75 percent. *)
Lemma C10_witness :
  (forall c, length (sample_to_datetime c) = length c) /\
  (forall c, length (sample_to_numeric c) = length c) /\
  load_and_clean_data sample_to_datetime sample_to_numeric sample_csv
  = (fst sample_frames, snd sample_frames) /\
  sample_csv <> [] /\
  exists q, pct_removed (fst sample_frames) (snd sample_frames) = Ok q /\
            (q == 75)%Q.
Proof.
  split; [exact sample_to_datetime_length |].
  split; [exact sample_to_numeric_length |].
  split; [reflexivity |].
  split; [discriminate |].
  destruct (C10_pct_removed sample_to_datetime sample_to_numeric
              sample_to_datetime_length sample_to_numeric_length
              sample_csv (fst sample_frames) (snd sample_frames) eq_refl)
    as [Hsome _].
  destruct (Hsome ltac:(discriminate)) as (q & Hq & Heq & _).
  exists q. split; [exact Hq |].
  eapply Qeq_trans; [exact Heq |]. reflexivity.
Defined.

(** C2 on the scenario: the 2019-2021 movies. *)
Lemma C2_witness :
  sublist (apply_filter sample_catalog ["Movie"] 2019 2021) sample_catalog.
Proof.
  exact (proj2 (proj2 (C2_filter_containment sample_catalog ["Movie"] 2019 2021))).
Defined.

(** C3 on a text with a digit run in the middle. *)
Lemma C3_witness : extract_number (Some "about 45 min") = Some (decimal_value "45").
Proof.
  apply (proj1 C3_numeric_extraction).
  exists "about ", "45", " min". repeat split; discriminate.
Defined.



(** C5 on the scenario: a cell with two countries counts for both. *)
Lemma C5_witness :
  delimited_values (Some "US, UK") = ["US"; "UK"] /\
  explosion_conserved country sample_catalog
    (value_counts stable_sort (countries_list sample_catalog)).
Proof.
  destruct (C5_explosion_conservation stable_sort stable_sort_perm sample_catalog)
    as ((Hcut & Hone & _) & Hcountry & _).
  split; [| exact Hcountry].
  rewrite <- (Hone "UK" eq_refl). exact (Hcut "US" "UK" eq_refl).
Defined.

(** C6 on the sample store with no content type selected. *)
Lemma C6_witness :
  sample_store !! 1%positive = Some {| rows := sample_catalog; added := ∅ |} /\
  exists lf d h', session stable_sort 1%positive [] 2019 2021 sample_store
                  = Ok ((lf, d), h') /\
                  insight_mix d = OnlyMoviesSelected /\
                  insight_genre d = NoDataAvailable.
Proof.
  split; [reflexivity |].
  destruct (C6_empty_view_content_mix stable_sort stable_sort_perm
              sample_store 1%positive
              {| rows := sample_catalog; added := ∅ |} [] 2019 2021
              eq_refl (or_introl eq_refl))
    as (_ & (lf & d & h' & Hs & _ & _ & Hgenre & _ & Hmix & _) & _).
  exists lf, d, h'. split; [exact Hs |]. split; [exact Hmix | exact Hgenre].
Defined.

(** C7 on the scenario: three movies to two shows. *)
Lemma C7_witness :
  (0 < count_type "TV Show" sample_catalog)%nat /\
  exists ratio, content_mix_insight sample_catalog = Ok (ContentMixRatio ratio) /\
                (ratio == 3 # 2)%Q.
Proof.
  assert (Hshows : (0 < count_type "TV Show" sample_catalog)%nat)
    by (apply Nat.ltb_lt; reflexivity).
  split; [exact Hshows |].
  exact (proj1 (C7_content_mix sample_catalog) Hshows).
Defined.

(** C8 on release years 2020, 2021, 2021. *)
Lemma C8_witness :
  sample_years <> [] /\
  Forall (fun r => release_year r <> None) sample_years /\
  exists y, avg_year_insight sample_years = Ok (AverageReleaseYear y).
Proof.
  assert (Hne : sample_years <> []) by discriminate.
  assert (Hall : Forall (fun r => release_year r <> None) sample_years)
    by (repeat constructor; discriminate).
  split; [exact Hne |]. split; [exact Hall |].
  destruct (C8_average_release_year sample_years Hne Hall)
    as (years & y & _ & _ & Hy & _).
  exists y. exact Hy.
Defined.

(** C9 on the sample store. *)
Lemma C9_witness :
  sample_store !! 1%positive = Some {| rows := sample_catalog; added := ∅ |} /\
  Forall all_fields_non_null sample_catalog /\
  exists lf d h',
    session stable_sort 1%positive ["Movie"] 2019 2021 sample_store
    = Ok ((lf, d), h') /\
    h' !! 1%positive = Some {| rows := sample_catalog; added := ∅ |}.
Proof.
  split; [reflexivity |]. split; [exact sample_catalog_cleaned |].
  destruct (C9_store_unchanged stable_sort stable_sort_perm sample_store 1%positive
              {| rows := sample_catalog; added := ∅ |} ["Movie"] 2019 2021
              eq_refl sample_catalog_cleaned)
    as (lf & d & h1 & h' & _ & _ & Hs & _ & _ & _ & _ & _ & _ & Hdf).
  exists lf, d, h'. split; [exact Hs | exact Hdf].
Defined.

Lemma X1_witness : dropna sample_catalog = sample_catalog.
Proof. exact (proj1 (proj2 (X1_dropna_idempotent sample_catalog)) sample_catalog_cleaned). Defined.

(** X2.  Filtering a view again composes: two filters applied one after
    the other select the rows that pass both, whichever comes first, and
    applying the same filter twice is applying it once. *)
Theorem X2_filter_composes (df : list Row) (types1 types2 : list string)
    (low1 high1 low2 high2 : Z) :
  (forall r, In r (apply_filter (apply_filter df types1 low1 high1) types2 low2 high2)
     <-> In r df /\ matches_filter types1 low1 high1 r
                 /\ matches_filter types2 low2 high2 r) /\
  apply_filter (apply_filter df types1 low1 high1) types2 low2 high2
  = apply_filter (apply_filter df types2 low2 high2) types1 low1 high1 /\
  apply_filter (apply_filter df types1 low1 high1) types1 low1 high1
  = apply_filter df types1 low1 high1.
Proof.
  rewrite !apply_filter_rowwise, !filter_filter_and. split_and!.
  - intros r. rewrite filter_In, andb_true_iff, !row_passes_spec. tauto.
  - apply filter_ext. intros r. apply andb_comm.
  - apply filter_ext. intros r. by destruct (row_passes types1 low1 high1 r).
Qed.

(** X3.  Widening the filter never loses a row: when every selected type
    stays selected and the year range grows, the narrow view is a
    subsequence of the wide one, and narrowing the wide view gives the
    narrow view back. *)
Theorem X3_filter_monotone (df : list Row) (types types' : list string)
    (low high low' high' : Z) :
  (forall t, In t types -> In t types') -> low' <= low -> high <= high' ->
  sublist (apply_filter df types low high) (apply_filter df types' low' high') /\
  apply_filter (apply_filter df types' low' high') types low high
  = apply_filter df types low high.
Proof.
  intros Htypes Hlow Hhigh.
  assert (Himp : forall r, row_passes types low high r = true ->
                           row_passes types' low' high' r = true).
  { intros r. rewrite !row_passes_spec.
    intros [(t & Ht & Hin) (y & Hy & Hlo & Hhi)]. split.
    - exists t. split; [done | by apply Htypes].
    - exists y. split; [done | lia]. }
  assert (Hnarrow : apply_filter (apply_filter df types' low' high') types low high
                    = apply_filter df types low high).
  { rewrite !apply_filter_rowwise, filter_filter_and. apply filter_ext. intros r.
    destruct (row_passes types low high r) eqn:E.
    - by rewrite (Himp r E).
    - apply andb_false_r. }
  split; [| exact Hnarrow].
  rewrite <- Hnarrow. rewrite (apply_filter_rowwise (apply_filter _ _ _ _)).
  apply filter_sublist.
Qed.

Lemma X3_witness :
  sublist (apply_filter sample_catalog ["Movie"] 2020 2020)
          (apply_filter sample_catalog ["Movie"; "TV Show"] 2019 2021).
Proof.
  refine (proj1 (X3_filter_monotone sample_catalog ["Movie"] ["Movie"; "TV Show"]
                   2020 2020 2019 2021 _ _ _)).
  - intros t [<-|[]]. left. reflexivity.
  - discriminate.
  - discriminate.
Defined.

Lemma X5_witness :
  sample_catalog <> [] /\ Forall all_fields_non_null sample_catalog /\
  exists types low high,
    sidebar sample_catalog = Done {| content_types := map Some types;
                                     slider_min := low; slider_max := high |} /\
    apply_filter sample_catalog types low high = sample_catalog.
Proof.
  assert (Hne : sample_catalog <> []) by discriminate.
  split; [exact Hne |]. split; [exact sample_catalog_cleaned |].
  destruct (X5_default_filter_keeps_all sample_catalog Hne sample_catalog_cleaned)
    as (types & low & high & Hs & _ & Hf).
  exists types, low, high. split; [exact Hs | exact Hf].
Defined.

Lemma X6_witness :
  sidebar sample_catalog
  = Done {| content_types := [Some "Movie"; Some "TV Show"];
            slider_min := 2019; slider_max := 2021 |} /\
  exists r, r ∈ sample_catalog /\ release_year r = Some 2019.
Proof.
  split; [reflexivity |].
  exact (proj1 (X6_slider_bounds sample_catalog _ eq_refl)).
Defined.

Lemma X7_witness :
  sidebar sample_catalog
  = Done {| content_types := [Some "Movie"; Some "TV Show"];
            slider_min := 2019; slider_max := 2021 |} /\
  NoDup [Some "Movie"; Some "TV Show"].
Proof.
  split; [reflexivity |].
  exact (proj1 (X7_content_type_options sample_catalog _ eq_refl)).
Defined.

Lemma X8_witness :
  exists q, pct_removed (List.skipn 1 (fst sample_frames))
              (dropna (List.skipn 1 (fst sample_frames))) = Ok q /\ (q == 100)%Q.
Proof.
  refine (proj1 (proj2 (X8_all_rows_dropped (List.skipn 1 (fst sample_frames)) _ _))).
  - discriminate.
  - repeat constructor; intros H; apply row_isna_spec in H; discriminate H.
Defined.

Lemma X10_witness :
  Forall (fun r => type r <> None) sample_catalog /\
  Z.of_nat (sum_counts (type_dist stable_sort sample_catalog))
  = total_titles (key_metrics sample_catalog).
Proof.
  assert (Hall : Forall (fun r => type r <> None) sample_catalog)
    by (repeat constructor; discriminate).
  split; [exact Hall |].
  exact (proj2 (proj2 (proj2 (X10_type_distribution stable_sort stable_sort_perm
                                  sample_catalog))) Hall).
Defined.

Lemma X11_witness :
  Forall (fun r => date_added r <> None) sample_catalog /\
  sum_counts (added_trend sample_catalog) = length sample_catalog.
Proof.
  assert (Hall : Forall (fun r => date_added r <> None) sample_catalog)
    by (repeat constructor; discriminate).
  split; [exact Hall |].
  exact (proj2 (proj2 (X11_added_trend sample_catalog)) Hall).
Defined.

Lemma X12_witness :
  Forall (fun r => release_year r <> None) sample_catalog /\
  sum_counts (release_dist stable_sort sample_catalog) = length sample_catalog.
Proof.
  assert (Hall : Forall (fun r => release_year r <> None) sample_catalog)
    by (repeat constructor; discriminate).
  split; [exact Hall |].
  exact (proj2 (proj2 (X12_release_distribution stable_sort stable_sort_perm
                          sample_catalog)) Hall).
Defined.

Lemma X13_witness :
  is_top_k_by_count 10 (drop_null (col rating sample_catalog))
    (rating_dist stable_sort sample_catalog) /\
  rating_dist stable_sort sample_catalog
  = head 10 (value_counts stable_sort (col rating sample_catalog)).
Proof.
  destruct (X13_rating_distribution stable_sort stable_sort_perm
              stable_sort_descending sample_catalog) as [Hcount Hstable].
  split; [exact Hcount | exact (Hstable stable_sort_is_stable)].
Defined.

Lemma X14_witness :
  countries (key_metrics sample_catalog) = 3 /\
  length (top_countries stable_sort sample_catalog) = 3%nat.
Proof.
  destruct (X14_distinct_values stable_sort stable_sort_perm sample_catalog)
    as (Hcountries & _ & Hbars & _).
  split; [rewrite Hcountries | rewrite Hbars]; reflexivity.
Defined.

Lemma X15_witness :
  sample_catalog <> [] /\ Forall (fun r => listed_in r <> None) sample_catalog /\
  exists g, top_genre_insight stable_sort sample_catalog = Ok (MostPopularGenre g).
Proof.
  assert (Hne : sample_catalog <> []) by discriminate.
  assert (Hall : Forall (fun r => listed_in r <> None) sample_catalog)
    by (repeat constructor; discriminate).
  split; [exact Hne |]. split; [exact Hall |].
  destruct (X15_most_popular_genre stable_sort stable_sort_perm
              stable_sort_descending sample_catalog Hne Hall)
    as (g & n & rest & Hi & _).
  exists g. exact Hi.
Defined.

Lemma X16_witness :
  sample_store !! 1%positive = Some {| rows := sample_catalog; added := ∅ |} /\
  exists pm h1, movie_durations 1%positive sample_store = Ok (pm, h1).
Proof.
  split; [reflexivity |].
  destruct (X16_duration_panels sample_store 1%positive
              {| rows := sample_catalog; added := ∅ |} eq_refl)
    as (pm & ps & h1 & h2 & Hm & _).
  exists pm, h1. exact Hm.
Defined.

Lemma X17_witness :
  sample_store !! 1%positive = Some {| rows := sample_catalog; added := ∅ |} /\
  Forall all_fields_non_null sample_catalog /\
  exists lf d h' lf' h'',
    session stable_sort 1%positive ["Movie"] 2019 2021 sample_store
    = Ok ((lf, d), h') /\
    session stable_sort 1%positive ["Movie"] 2019 2021 h' = Ok ((lf', d), h'').
Proof.
  split; [reflexivity |]. split; [exact sample_catalog_cleaned |].
  destruct (X17_rerun_same_dashboard stable_sort stable_sort_perm
              sample_store 1%positive
              {| rows := sample_catalog; added := ∅ |} ["Movie"] 2019 2021
              eq_refl sample_catalog_cleaned)
    as (lf & d & h' & lf' & h'' & H1 & H2 & _).
  exists lf, d, h', lf', h''. split; [exact H1 | exact H2].
Defined.

Lemma X19_witness :
  sample_store !! 1%positive = Some {| rows := sample_catalog; added := ∅ |} /\
  sample_catalog <> [] /\ Forall all_fields_non_null sample_catalog /\
  exists types low high lf d h',
    session stable_sort 1%positive types low high sample_store = Ok ((lf, d), h') /\
    total_titles (metrics d) = 5.
Proof.
  assert (Hne : sample_catalog <> []) by discriminate.
  split; [reflexivity |]. split; [exact Hne |]. split; [exact sample_catalog_cleaned |].
  destruct (X19_first_render stable_sort stable_sort_perm sample_store 1%positive
              {| rows := sample_catalog; added := ∅ |} eq_refl Hne
              sample_catalog_cleaned)
    as (types & low & high & lf & d & h' & _ & Hs & _ & Ht).
  exists types, low, high, lf, d, h'. split; [exact Hs | exact Ht].
Defined.
